(** * Vehicle stoppage identification and visualisation

    A shallow embedding of [stoppage_analysis.py]: a linear script that
    loads GPS pings from a sheet, prepares a time-indexed geometry table,
    asks a trajectory library for stop points and draws them on a map.

    Conventions of the embedding.
    - A pandas float64 cell is NaN or the rational its double stands for
      ([float64]); an arithmetic operation gives the exact result rounded to
      the nearest double ([RN]); infinities are outside the model.
    - A pandas timestamp is a count of nanoseconds since the epoch or NaT
      ([Timestamp]).
    - A data frame keeps its column labels and, per row, an index label and
      the cells as an association list in column order, so that duplicated
      labels stay representable.
    - A [try] block is a computation in the [block] monad: the lines it
      printed and either its result or the fact that an exception was
      raised.
    - Library routines whose code is not part of the script (numeric parsing,
      the stop detector, time formatting, writing the file) are fields of
      the record [Env]. *)

From Stdlib Require Import String Ascii List ZArith QArith Qround Bool Lia.
From Stdlib Require Import DecimalString.
From Stdlib Require Import Qabs Lqa Qpower.
From Stdlib Require Import Sorted Permutation Orders Mergesort.
Import ListNotations.
Local Open Scope string_scope.
Local Open Scope list_scope.

(** ** Cell values *)

(** NaN is [None]. *)
Definition float64 : Type := option Q.

(** Nanoseconds since the epoch; NaT is [None]. *)
Definition Timestamp : Type := option Z.

(** [shapely.geometry.Point]. *)
Record Point : Type := mkPoint { px : float64; py : float64 }.

Inductive value : Type :=
| VNone
| VStr (s : string)
| VInt (n : Z)
| VNum (v : float64)
| VTime (t : Timestamp)
| VPoint (p : Point).

(** ** A small data-frame model *)

Record Row : Type := mkRow { label : value; cells : list (string * value) }.

Record DataFrame : Type := mkFrame { columns : list string; rows : list Row }.

(** A [GeoDataFrame]: a frame with a designated geometry column and a CRS. *)
Record GeoDataFrame : Type :=
  mkGeo { frame : DataFrame; geometry_name : string; crs : string }.

Definition count (c : string) (cols : list string) : nat :=
  count_occ string_dec cols c.

(** [c in df.columns] *)
Definition has_column (c : string) (df : DataFrame) : bool :=
  existsb (String.eqb c) (columns df).

(** [DataFrame.empty]: some axis has length zero. *)
Definition empty (df : DataFrame) : bool :=
  (Nat.eqb (length (columns df)) 0) || (Nat.eqb (length (rows df)) 0).

Fixpoint lookup (c : string) (cs : list (string * value)) : value :=
  match cs with
  | [] => VNone
  | (k, v) :: cs' => if String.eqb c k then v else lookup c cs'
  end.

(** [row[c]] *)
Definition at_col (c : string) (r : Row) : value := lookup c (cells r).

(** [df[c]] as the list of its cells, top to bottom. *)
Definition column (c : string) (df : DataFrame) : list value :=
  map (at_col c) (rows df).

Definition overwrite (c : string) (v : value) (cs : list (string * value))
  : list (string * value) :=
  map (fun kv => if String.eqb c (fst kv) then (fst kv, v) else kv) cs.

Definition mentions (c : string) (cs : list (string * value)) : bool :=
  existsb (fun kv => String.eqb c (fst kv)) cs.

(** Writing one cell: every cell labelled [c] is overwritten; a new cell is
    appended when there is none. *)
Definition set_cell (c : string) (v : value) (cs : list (string * value))
  : list (string * value) :=
  if mentions c cs then overwrite c v cs else cs ++ [(c, v)].

Definition write (c : string) (f : Row -> value) (r : Row) : Row :=
  mkRow (label r) (set_cell c (f r) (cells r)).

(** [df[c] = f(row)] computed row by row.  pandas writes every column that
    carries the label and appends a column when none does. *)
Definition assign (c : string) (f : Row -> value) (df : DataFrame) : DataFrame :=
  {| columns := if has_column c df then columns df else columns df ++ [c];
     rows := map (write c f) (rows df) |}.

Definition without (c : string) (cs : list (string * value)) : list (string * value) :=
  filter (fun kv => negb (String.eqb c (fst kv))) cs.

Definition reindex (c : string) (r : Row) : Row :=
  mkRow (at_col c r) (without c (cells r)).

(** [df.set_index(c)] for a label carried by exactly one column: the column
    becomes the index and leaves the table. *)
Definition set_index (c : string) (df : DataFrame) : DataFrame :=
  {| columns := filter (fun k => negb (String.eqb c k)) (columns df);
     rows := map (reindex c) (rows df) |}.

(** *** Sorting a datetime index *)

Definition time_of (v : value) : Timestamp :=
  match v with VTime t => t | _ => None end.

(** The order of [sort_index] on a datetime index: ascending, NaT last. *)
Definition ts_leb (a b : Timestamp) : bool :=
  match a, b with
  | _, None => true
  | None, Some _ => false
  | Some x, Some y => Z.leb x y
  end.

Module IndexOrder <: TotalLeBool.

Definition t : Type := Row.

Definition leb (r1 r2 : Row) : bool :=
  ts_leb (time_of (label r1)) (time_of (label r2)).

Theorem leb_total : forall r1 r2, leb r1 r2 = true \/ leb r2 r1 = true.
Proof.
  intros r1 r2; unfold leb.
  destruct (time_of (label r1)) as [a|], (time_of (label r2)) as [b|];
    simpl; auto.
  destruct (Z.leb_spec a b); [left; reflexivity|right].
  apply Z.leb_le; lia.
Qed.

End IndexOrder.

Module IndexSort := Sort IndexOrder.

(** [df.sort_index()].  pandas' default sort is not stable; the merge sort
    used here is one of its admissible results, and no statement below
    depends on how ties are ordered. *)
Definition sort_index (df : DataFrame) : DataFrame :=
  {| columns := columns df; rows := IndexSort.sort (rows df) |}.

(** *** Missing values *)

Definition isna (v : value) : bool :=
  match v with
  | VNone => true
  | VNum None => true
  | VTime None => true
  | _ => false
  end.

Definition complete (subset : list string) (r : Row) : bool :=
  forallb (fun c => negb (isna (at_col c r))) subset.

(** [df.dropna(subset=cols)]: a row goes when any listed cell is missing. *)
Definition dropna (subset : list string) (df : DataFrame) : DataFrame :=
  {| columns := columns df; rows := filter (complete subset) (rows df) |}.

(** *** Numbers *)

(** Round half to even, the rule of Python's [round]. *)
Definition round_half_even (q : Q) : Z :=
  let f := Qfloor q in
  match Qcompare (q - inject_Z f) (1 # 2) with
  | Lt => f
  | Gt => (f + 1)%Z
  | Eq => if Z.even f then f else (f + 1)%Z
  end.

(** The nearest multiple of a hundredth, ties to the even one. *)
Definition round2 (q : Q) : Q := (inject_Z (round_half_even (q * 100)) / 100)%Q.

(** *** IEEE 754 binary64 arithmetic

    A double is the rational it stands for.  The result of an operation is
    the exact result rounded to the nearest double, ties to the even
    mantissa; overflow to infinity is outside the model. *)

(** The exponent of the largest power of two that is at most a positive
    rational. *)
Definition ilog2 (q : Q) : Z :=
  let k := (Z.log2 (Qnum q) - Z.log2 (Zpos (Qden q)))%Z in
  if Qle_bool (2 ^ k) q then k else (k - 1)%Z.

(** The exponent of the last place: 52 binary places below the leading one,
    and never below the spacing of the subnormal numbers. *)
Definition ulp_exponent (q : Q) : Z := Z.max (ilog2 (Qabs q) - 52) (-1074).

(** Round to the nearest double. *)
Definition RN (q : Q) : Q :=
  let e := ulp_exponent q in
  Qred (inject_Z (round_half_even (q / 2 ^ e)) * 2 ^ e).

(** [x / d] on doubles. *)
Definition float_div (x d : Q) : Q := RN (x / d).

(** [round(x, 2)] on a Python float: the decimal rounding of the exact value
    of [x], half to even, converted back to the nearest double. *)
Definition py_round2 (x : Q) : Q := RN (round2 x).

(** ** What the script prints

    The status lines of the script; its DEBUG lines and table dumps are left
    out, and the text of a caught exception is not modelled. *)

Inductive message : Type :=
| AttemptingLoad
| DataLoaded
| ErrorLoading
| PleaseEnsure
| CheckServiceAccountFile (path : string)
| CheckSheetShared
| PreparingGeoDataFrame
| GeoDataFrameCreated
| ErrorPreparing
| DetectingStoppages (minutes : Z)
| NoValidPoints
| StoppagesIdentified (n : nat)
| NoStoppagesFound
| ErrorDetecting
| CreatingMap
| PathAdded
| MarkersAdded (n : nat)
| NoMarkersToAdd
| MapSaved (file : string)
| OpenInBrowser
| ErrorVisualizing.

(** ** The body of a [try] block

    The lines printed so far, and the value reached or [None] when an
    exception was raised. *)

Definition block (A : Type) : Type := (list message * option A)%type.

Definition ret {A : Type} (a : A) : block A := ([], Some a).

Definition raise {A : Type} : block A := ([], None).

Definition say (m : message) : block unit := ([m], Some tt).

Definition bind {A B : Type} (c : block A) (k : A -> block B) : block B :=
  match c with
  | (out, None) => (out, None)
  | (out, Some a) => let '(out', b) := k a in (out ++ out', b)
  end.

Definition require (b : bool) : block unit := if b then ret tt else raise.

Definition lift {A : Type} (o : option A) : block A :=
  match o with Some a => ret a | None => raise end.

Declare Scope block_scope.
Delimit Scope block_scope with block.
Notation "x <- c ;; k" := (bind c (fun x => k))
  (at level 61, c at next level, right associativity) : block_scope.
Notation "c ;; k" := (bind c (fun _ => k))
  (at level 61, right associativity) : block_scope.

(** [try: body / except Exception: print(err)]: the handler's line is printed
    when the body raised. *)
Definition handled {A : Type} (err : message) (body : block A) : block A :=
  match body with
  | (out, None) => (out ++ [err], None)
  | done => done
  end.

(** The same with a handler that prints several lines. *)
Definition handled_lines {A : Type} (errs : list message) (body : block A)
  : block A :=
  match body with
  | (out, None) => (out ++ errs, None)
  | done => done
  end.

Definition output {A : Type} (c : block A) : list message := fst c.
Definition result {A : Type} (c : block A) : option A := snd c.

(** ** The map document *)

Record PolyLine : Type := mkPolyLine {
  locations : list (float64 * float64);
  line_color : string;
  weight : Z;
  opacity : Q;
  tooltip : string }.

Record Popup : Type := mkPopup { html : string; max_width : Z }.

Record Icon : Type := mkIcon { icon_color : string; icon : string }.

Record Marker : Type := mkMarker {
  marker_location : float64 * float64;
  popup : Popup;
  marker_icon : Icon }.

Inductive child : Type :=
| Line (l : PolyLine)
| Pin (m : Marker).

(** [folium.Map] with what was added to it, in the order of [add_to]. *)
Record FoliumMap : Type := mkMap {
  location : float64 * float64;
  zoom_start : Z;
  children : list child }.

Definition add_to (c : child) (m : FoliumMap) : FoliumMap :=
  mkMap (location m) (zoom_start m) (children m ++ [c]).

Definition markers (m : FoliumMap) : list Marker :=
  flat_map (fun c => match c with Pin k => [k] | Line _ => [] end) (children m).

(** ** Stop points

    One row of the table returned by the stop detector, with the columns the
    script reads from it. *)

Record StopPoint : Type := mkStop {
  stop_id : string;
  stop_geometry : Point;
  start_time : Z;
  end_time : Z;
  duration_s : Q }.

Definition stop_row (s : StopPoint) : Row :=
  mkRow (VStr (stop_id s))
        [("geometry", VPoint (stop_geometry s));
         ("start_time", VTime (Some (start_time s)));
         ("end_time", VTime (Some (end_time s)));
         ("duration_s", VNum (Some (duration_s s)))].

Definition stop_frame (pts : list StopPoint) : GeoDataFrame :=
  mkGeo (mkFrame ["geometry"; "start_time"; "end_time"; "duration_s"]
                 (map stop_row pts))
        "geometry" "EPSG:4326".

(** ** The environment of a run *)

Record Env : Type := mkEnv {
  (** [sheet.get_all_values()] after authorisation, or [None] when any of
      the credential, network or sheet calls raised. *)
  get_all_values : option (list (list string));
  (** [pd.to_numeric(_, errors='coerce')] on one text cell. *)
  parse_number : string -> float64;
  (** [pd.to_datetime(_, unit='ms', errors='coerce')] on one number. *)
  datetime_of_ms : Q -> Timestamp;
  (** [Series.mean()] on a float64 column: the arithmetic mean of its cells
      as pandas computes it in floating point. *)
  series_mean : list float64 -> float64;
  (** [mpd.Trajectory(gdf, id)] followed by
      [TrajectoryStopDetector(_).get_stop_points(min_duration, max_diameter)];
      [None] when either raised.  The duration is in microseconds. *)
  get_stop_points : GeoDataFrame -> string -> Z -> Z -> option (list StopPoint);
  (** [Timestamp.strftime(format)]. *)
  strftime : string -> Z -> string;
  (** How an f-string prints a float. *)
  float_str : float64 -> string;
  (** [m.save(file)]: whether the file was written. *)
  save : string -> FoliumMap -> bool }.

(** ** Configuration *)

Definition SERVICE_ACCOUNT_FILE : string := "google_sheets_service_account.json".
Definition STOPPAGE_THRESHOLD_MINUTES : Z := 5.
Definition max_diameter_meters : Z := 50.
Definition output_map_file : string := "vehicle_stoppages_map.html".
Definition fallback_center : float64 * float64 :=
  (Some (200827 # 10000), Some (789629 # 10000)).
Definition time_format : string := "%Y-%m-%d %H:%M:%S".

(** [timedelta(minutes=m)], in microseconds. *)
Definition timedelta_minutes (m : Z) : Z := (m * 60 * 1000000)%Z.

(** ** Step 1: the sheet becomes a table *)

Definition pad (width : nat) (r : list string) : list value :=
  map VStr r ++ repeat VNone (width - length r).

(** [pd.DataFrame(body, columns=cols)] on a list of lists: short rows are
    padded with missing cells up to the longest row, and the constructor
    raises when that width differs from the number of column labels. *)
Definition pd_DataFrame (body : list (list string)) (cols : list string)
  : option DataFrame :=
  let width := fold_right Nat.max 0%nat (map (@length string) body) in
  match body with
  | [] => Some (mkFrame cols [])
  | _ :: _ =>
      if Nat.eqb width (length cols)
      then Some (mkFrame cols
                   (map (fun ir => mkRow (VInt (Z.of_nat (fst ir)))
                                         (combine cols (pad width (snd ir))))
                        (combine (seq 0 (length body)) body)))
      else None
  end.

Section Script.

Variable env : Env.

Local Open Scope block_scope.

(** Lines 23-42. *)
Definition load : block DataFrame :=
  say AttemptingLoad ;;
  handled_lines [ErrorLoading; PleaseEnsure;
                 CheckServiceAccountFile SERVICE_ACCOUNT_FILE; CheckSheetShared]
    (data <- lift (get_all_values env) ;;
     df <- match data with
           | [] => raise                       (* data[0] *)
           | header :: body => lift (pd_DataFrame body header)
           end ;;
     say DataLoaded ;;
     ret df).

(** [pd.to_numeric(_, errors='coerce')] on one cell. *)
Definition to_numeric (v : value) : float64 :=
  match v with
  | VStr s => parse_number env s
  | VInt n => Some (inject_Z n)
  | VNum x => x
  | _ => None
  end.

(** [pd.to_datetime(_, unit='ms', errors='coerce')] on one cell of a numeric
    column. *)
Definition to_datetime (v : value) : Timestamp :=
  match v with
  | VNum (Some q) => datetime_of_ms env q
  | VInt n => datetime_of_ms env (inject_Z n)
  | _ => None
  end.

Definition float_of (v : value) : float64 :=
  match v with
  | VNum x => x
  | VInt n => Some (inject_Z n)
  | _ => None
  end.

(** Reading [df[c]] as one series needs exactly one column so labelled:
    [KeyError] when there is none, and with several the selection is a frame,
    which the callers below reject. *)
Definition series (c : string) (df : DataFrame) : block unit :=
  require (Nat.eqb (count c (columns df)) 1).

(** The cell functions of the preparation step. *)
Definition numeric (c : string) (r : Row) : value :=
  VNum (to_numeric (at_col c r)).

Definition parsed_time (r : Row) : value :=
  VTime (to_datetime (at_col "eventGeneratedTime" r)).

(** [Point(xy)] for [xy] in [zip(df['longitude'], df['latitude'])]. *)
Definition point_of (r : Row) : value :=
  VPoint (mkPoint (float_of (at_col "longitude" r)) (float_of (at_col "latitude" r))).

(** Lines 45-88. *)
Definition prepare (df : DataFrame) : block GeoDataFrame :=
  say PreparingGeoDataFrame ;;
  handled ErrorPreparing
    (series "eventGeneratedTime" df ;;
     let df := assign "eventGeneratedTime" (numeric "eventGeneratedTime") df in
     let df := assign "Timestamp" parsed_time df in
     series "Timestamp" df ;;
     let df := sort_index (set_index "Timestamp" df) in
     series "latitude" df ;;
     let df := assign "latitude" (numeric "latitude") df in
     series "longitude" df ;;
     let df := assign "longitude" (numeric "longitude") df in
     let df := dropna ["latitude"; "longitude"] df in
     let df := assign "geometry" point_of df in
     series "geometry" df ;;
     say GeoDataFrameCreated ;;
     ret (mkGeo df "geometry" "EPSG:4326")).

(** Line 94. *)
Definition empty_stop_points : GeoDataFrame :=
  mkGeo (mkFrame ["start_time"; "end_time"; "duration_minutes"; "geometry"] [])
        "geometry" "EPSG:4326".

(** Line 97. *)
Definition trajectory_id_col (gdf : GeoDataFrame) : string :=
  if has_column "EquipmentId" (frame gdf) then "EquipmentId" else "Vehicle1_ID".

(** [series / 60] on one cell, a float64 division; text and missing cells
    raise. *)
Definition divide (v : value) (d : Q) : option value :=
  match v with
  | VNum x => Some (VNum (option_map (fun q => float_div q d) x))
  | VInt n => Some (VNum (Some (float_div (inject_Z n) d)))
  | _ => None
  end.

Definition with_frame (g : GeoDataFrame) (df : DataFrame) : GeoDataFrame :=
  mkGeo df (geometry_name g) (crs g).

(** [stop_points['duration_s'] / 60], one cell. *)
Definition minutes_of (r : Row) : value :=
  match divide (at_col "duration_s" r) 60 with
  | Some v => v
  | None => VNone
  end.

Definition divisible (r : Row) : bool :=
  match divide (at_col "duration_s" r) 60 with
  | Some _ => true
  | None => false
  end.

(** Line 114. *)
Definition add_duration_minutes (sp : GeoDataFrame) : block GeoDataFrame :=
  series "duration_s" (frame sp) ;;
  require (forallb divisible (rows (frame sp))) ;;
  ret (with_frame sp (assign "duration_minutes" minutes_of (frame sp))).

(** Lines 90-122. *)
Definition detect (gdf : GeoDataFrame) : block GeoDataFrame :=
  say (DetectingStoppages STOPPAGE_THRESHOLD_MINUTES) ;;
  handled ErrorDetecting
    (if empty (frame gdf)
     then say NoValidPoints ;; ret empty_stop_points
     else
       let min_duration_td := timedelta_minutes STOPPAGE_THRESHOLD_MINUTES in
       pts <- lift (get_stop_points env gdf (trajectory_id_col gdf)
                      min_duration_td max_diameter_meters) ;;
       let stop_points := stop_frame pts in
       if negb (empty (frame stop_points))
       then stop_points <- add_duration_minutes stop_points ;;
            say (StoppagesIdentified (length (rows (frame stop_points)))) ;;
            ret stop_points
       else say NoStoppagesFound ;; ret stop_points).

(** Lines 127-133. *)
Definition map_center (gdf : GeoDataFrame) : float64 * float64 :=
  if negb (empty (frame gdf))
  then (series_mean env (map float_of (column "latitude" (frame gdf))),
        series_mean env (map float_of (column "longitude" (frame gdf))))
  else fallback_center.

(** Line 139. *)
Definition path_coords (gdf : GeoDataFrame) : list (float64 * float64) :=
  combine (map float_of (column "latitude" (frame gdf)))
          (map float_of (column "longitude" (frame gdf))).

Definition nl : string := String (ascii_of_nat 10) "".
Definition indent : string := "            ".

(** Lines 156-162. *)
Definition popup_html (reach_time_str end_time_str duration_str : string) : string :=
  nl ++ indent ++ "<b>Stoppage Details</b><br>" ++
  nl ++ indent ++ "-----------------------------<br>" ++
  nl ++ indent ++ "<b>Reach Time:</b> " ++ reach_time_str ++ "<br>" ++
  nl ++ indent ++ "<b>End Time:</b> " ++ end_time_str ++ "<br>" ++
  nl ++ indent ++ "<b>Duration:</b> " ++ duration_str ++ " minutes" ++
  nl ++ indent.

(** Lines 152-168, one turn of the loop.  [strftime] needs a timestamp that
    is not NaT, [round] a number and [row.geometry] a point; anything else
    raises. *)
Definition stoppage_marker (row : Row) : option Marker :=
  match at_col "start_time" row, at_col "end_time" row,
        at_col "duration_minutes" row, at_col "geometry" row with
  | VTime (Some t0), VTime (Some t1), VNum d, VPoint p =>
      let reach_time_str := strftime env time_format t0 in
      let end_time_str := strftime env time_format t1 in
      let stoppage_duration_minutes := option_map py_round2 d in
      Some (mkMarker (py p, px p)
              (mkPopup (popup_html reach_time_str end_time_str
                          (float_str env stoppage_duration_minutes)) 300)
              (mkIcon "red" "info-sign"))
  | _, _, _, _ => None
  end.

Fixpoint add_markers (rs : list Row) (m : FoliumMap) : option FoliumMap :=
  match rs with
  | [] => Some m
  | row :: rs' =>
      match stoppage_marker row with
      | Some k => add_markers rs' (add_to (Pin k) m)
      | None => None
      end
  end.

(** Lines 138-147. *)
Definition vehicle_path (gdf : GeoDataFrame) : PolyLine :=
  mkPolyLine (path_coords gdf) "blue" 3 (7 # 10) "Vehicle Path".

Definition add_path (gdf : GeoDataFrame) (m : FoliumMap) : block FoliumMap :=
  if negb (empty (frame gdf))
  then let m := add_to (Line (vehicle_path gdf)) m in
       say PathAdded ;; ret m
  else ret m.

(** Lines 150-171. *)
Definition add_stoppages (stop_points : GeoDataFrame) (m : FoliumMap)
  : block FoliumMap :=
  if negb (empty (frame stop_points))
  then m <- lift (add_markers (rows (frame stop_points)) m) ;;
       say (MarkersAdded (length (rows (frame stop_points)))) ;;
       ret m
  else say NoMarkersToAdd ;; ret m.

(** Lines 125-180.  The handler prints and the script ends either way, so
    the block yields the saved document when there is one. *)
Definition visualize (gdf stop_points : GeoDataFrame) : block (string * FoliumMap) :=
  say CreatingMap ;;
  handled ErrorVisualizing
    (let m := mkMap (map_center gdf) 12 [] in
     m <- add_path gdf m ;;
     m <- add_stoppages stop_points m ;;
     require (save env output_map_file m) ;;
     say (MapSaved output_map_file) ;;
     say OpenInBrowser ;;
     ret (output_map_file, m)).

(** ** The whole run *)

Inductive ending : Type :=
| Exited          (* [exit()] in a handler *)
| Completed.      (* the script ran to its last line *)

Record Outcome : Type := mkOutcome {
  printed : list message;
  how : ending;
  saved : option (string * FoliumMap) }.

Definition run : Outcome :=
  match load with
  | (o1, None) => mkOutcome o1 Exited None
  | (o1, Some df) =>
      match prepare df with
      | (o2, None) => mkOutcome (o1 ++ o2) Exited None
      | (o2, Some gdf) =>
          match detect gdf with
          | (o3, None) => mkOutcome (o1 ++ o2 ++ o3) Exited None
          | (o3, Some stop_points) =>
              let '(o4, doc) := visualize gdf stop_points in
              mkOutcome (o1 ++ o2 ++ o3 ++ o4) Completed doc
          end
      end
  end.

(** ** Vocabulary of the properties *)

(** The cell functions of [prepare] on one sheet row, in the order of the
    script: the time becomes the index, the coordinates become numbers, the
    point is attached. *)
Definition timed (r : Row) : Row :=
  reindex "Timestamp"
    (write "Timestamp" parsed_time
       (write "eventGeneratedTime" (numeric "eventGeneratedTime") r)).

Definition with_coordinates (r : Row) : Row :=
  write "longitude" (numeric "longitude") (write "latitude" (numeric "latitude") r).

(** A sheet row as it stands in the prepared table, when it is kept. *)
Definition prepared_row (r : Row) : Row :=
  write "geometry" point_of (with_coordinates (timed r)).

(** Both coordinates of a sheet row parse as numbers. *)
Definition coordinates_parse (r : Row) : bool :=
  match to_numeric (at_col "latitude" r), to_numeric (at_col "longitude" r) with
  | Some _, Some _ => true
  | _, _ => false
  end.

(** The coordinate pairs of the sheet rows whose coordinates parse. *)
Definition valid_coordinates (df : DataFrame) : list (Q * Q) :=
  flat_map (fun r => match to_numeric (at_col "latitude" r),
                           to_numeric (at_col "longitude" r) with
                     | Some a, Some b => [(a, b)]
                     | _, _ => []
                     end) (rows df).

Definition load_failed : Prop := result load = None.

Definition prepare_failed : Prop :=
  exists df, result load = Some df /\ result (prepare df) = None.

Definition detect_failed : Prop :=
  exists df gdf, result load = Some df /\ result (prepare df) = Some gdf /\
                 result (detect gdf) = None.

Definition visualize_failed : Prop :=
  exists df gdf sp, result load = Some df /\ result (prepare df) = Some gdf /\
                    result (detect gdf) = Some sp /\
                    result (visualize gdf sp) = None.

End Script.

(** The timestamps of the index, top to bottom. *)
Definition index_times (df : DataFrame) : list Timestamp :=
  map (fun r => time_of (label r)) (rows df).

(** The timestamps of the index that are not NaT. *)
Definition parsed_times (df : DataFrame) : list Z :=
  flat_map (fun t => match t with Some z => [z] | None => [] end) (index_times df).

Definition ts_le (a b : Timestamp) : Prop := ts_leb a b = true.

(** The index is in time order, rows without a time last. *)
Definition chronological (df : DataFrame) : Prop :=
  StronglySorted ts_le (index_times df).

(** [sub] occurs in [s]. *)
Definition contains (s sub : string) : Prop :=
  exists before after : string, s = (before ++ sub ++ after)%string.

(** ** A sample environment

    Small stand-ins with the interfaces of the library routines, used to run
    the model on concrete sheets.  They are not the libraries' algorithms:
    nothing proved for every [Env] depends on them. *)

Module Sample.

Definition digit (c : ascii) : option Z :=
  let n := nat_of_ascii c in
  if Nat.leb 48 n && Nat.leb n 57 then Some (Z.of_nat (n - 48)) else None.

Fixpoint natural (s : string) (acc : Z) : option Z :=
  match s with
  | EmptyString => Some acc
  | String c s' =>
      match digit c with
      | Some d => natural s' (10 * acc + d)%Z
      | None => None
      end
  end.

Fixpoint split_dot (s : string) : string * option string :=
  match s with
  | EmptyString => (EmptyString, None)
  | String c s' =>
      if Ascii.eqb c "."%char then (EmptyString, Some s')
      else let '(a, b) := split_dot s' in (String c a, b)
  end.

Definition unsigned (s : string) : float64 :=
  match split_dot s with
  | (EmptyString, None) => None
  | (ip, None) => option_map inject_Z (natural ip 0)
  | (ip, Some fp) =>
      match natural ip 0, natural fp 0 with
      | Some a, Some b =>
          if Nat.eqb (String.length ip + String.length fp) 0 then None
          else Some (Qred (inject_Z a
                           + inject_Z b / inject_Z (10 ^ Z.of_nat (String.length fp))))
      | _, _ => None
      end
  end.

(** Plain decimal literals with an optional sign, as the nearest double;
    anything else is NaN. *)
Definition decimal (s : string) : float64 :=
  option_map RN
    match s with
    | String "-"%char s' => option_map (fun q => Qred (- q)) (unsigned s')
    | _ => unsigned s
    end.

(** Milliseconds to nanoseconds, NaT outside the 64-bit range. *)
Definition ms_to_ns (q : Q) : Timestamp :=
  let ns := Qfloor (q * 1000000) in
  if ((- 2 ^ 63 <? ns) && (ns <? 2 ^ 63))%Z then Some ns else None.

Definition two_digits (n : Z) : string :=
  String (ascii_of_nat (48 + Z.to_nat (n / 10)))
    (String (ascii_of_nat (48 + Z.to_nat (n mod 10))) EmptyString).

Definition four_digits (n : Z) : string :=
  two_digits (n / 100) ++ two_digits (n mod 100).

(** Proleptic Gregorian date of a day count since 1970-01-01. *)
Definition civil (days : Z) : Z * Z * Z :=
  let z := (days + 719468)%Z in
  let era := (z / 146097)%Z in
  let doe := (z - era * 146097)%Z in
  let yoe := ((doe - doe / 1460 + doe / 36524 - doe / 146096) / 365)%Z in
  let doy := (doe - (365 * yoe + yoe / 4 - yoe / 100))%Z in
  let mp := ((5 * doy + 2) / 153)%Z in
  let d := (doy - (153 * mp + 2) / 5 + 1)%Z in
  let m := (if mp <? 10 then mp + 3 else mp - 9)%Z in
  let y := (yoe + era * 400 + (if m <=? 2 then 1 else 0))%Z in
  (y, m, d).

(** The one format the script uses, for years 0 to 9999. *)
Definition ymd_hms (fmt : string) (ns : Z) : string :=
  let secs := (ns / 1000000000)%Z in
  let '(y, m, d) := civil (secs / 86400) in
  let sod := (secs mod 86400)%Z in
  four_digits y ++ "-" ++ two_digits m ++ "-" ++ two_digits d ++ " " ++
  two_digits (sod / 3600) ++ ":" ++ two_digits (sod / 60 mod 60) ++ ":" ++
  two_digits (sod mod 60).

(** The nearest number of hundredths, printed the way Python prints such a
    float. *)
Definition show_float (v : float64) : string :=
  match v with
  | None => "nan"
  | Some q =>
      let h := round_half_even (q * 100) in
      let a := Z.abs h in
      let frac := (a mod 100)%Z in
      (if (h <? 0)%Z then "-" else "") ++
      NilZero.string_of_int (Z.to_int (a / 100)) ++ "." ++
      (if (frac mod 10 =? 0)%Z
       then String (ascii_of_nat (48 + Z.to_nat (frac / 10))) EmptyString
       else two_digits frac)
  end.

(** One stop from the first to the last fix when they are at least
    [min_duration] apart; like the library, a table of fewer than two rows is
    refused. *)
Definition span_detector (gdf : GeoDataFrame) (id : string)
    (min_duration max_diameter : Z) : option (list StopPoint) :=
  match rows (frame gdf) with
  | [] => None
  | [_] => None
  | first :: rest =>
      match time_of (label first), time_of (label (last rest first)),
            at_col "geometry" first with
      | Some t0, Some t1, VPoint p =>
          if (min_duration * 1000 <=? t1 - t0)%Z
          then Some [mkStop (id ++ "_0") p t0 t1
                       (Qred (inject_Z (t1 - t0) / 1000000000))]
          else Some []
      | _, _, _ => None
      end
  end.

(** The mean by a running float64 sum, NaN cells skipped. *)
Definition running_mean (vs : list float64) : float64 :=
  match flat_map (fun v => match v with Some q => [q] | None => [] end) vs with
  | [] => None
  | x :: xs =>
      Some (float_div (fold_left (fun acc y => RN (acc + y)) (x :: xs) 0)
                      (inject_Z (Z.of_nat (length (x :: xs)))))
  end.

Definition sheet_env (data : option (list (list string))) : Env :=
  mkEnv data decimal ms_to_ns running_mean span_detector ymd_hms show_float
        (fun _ _ => true).

(** Three fixes within ten minutes, one row without coordinates and one row
    without a readable time. *)
Definition pings : list (list string) :=
  [ ["EquipmentId"; "eventGeneratedTime"; "latitude"; "longitude"];
    ["V1"; "1609459800000"; "21.1460"; "79.0882"];
    ["V1"; "1609459200000"; "21.1458"; "79.0880"];
    ["V1"; "1609459500000"; "n/a"; "79.0881"];
    ["V1"; "1609459500000"; "21.1459"; "79.0881"] ].

(** A sheet on which no row has coordinates that parse. *)
Definition no_coordinates : list (list string) :=
  [ ["EquipmentId"; "eventGeneratedTime"; "latitude"; "longitude"];
    ["V1"; "1609459200000"; ""; ""];
    ["V1"; "1609459500000"; "n/a"; "79.0881"] ].

(** A sheet with a single fix. *)
Definition one_ping : list (list string) :=
  [ ["EquipmentId"; "eventGeneratedTime"; "latitude"; "longitude"];
    ["V1"; "1609459200000"; "21.1458"; "79.0880"] ].

(** A sheet on which the second row has good coordinates and a time that is
    not a number. *)
Definition unreadable_time : list (list string) :=
  [ ["EquipmentId"; "eventGeneratedTime"; "latitude"; "longitude"];
    ["V1"; "1609459200000"; "21.1458"; "79.0880"];
    ["V1"; "yesterday"; "21.1459"; "79.0881"] ].

Definition table_of (data : list (list string)) : DataFrame :=
  match result (load (sheet_env (Some data))) with
  | Some df => df
  | None => mkFrame [] []
  end.

Definition prepared_of (data : list (list string)) : GeoDataFrame :=
  match result (prepare (sheet_env (Some data)) (table_of data)) with
  | Some gdf => gdf
  | None => mkGeo (mkFrame [] []) "" ""
  end.

Definition stops_of (data : list (list string)) : GeoDataFrame :=
  match result (detect (sheet_env (Some data)) (prepared_of data)) with
  | Some sp => sp
  | None => mkGeo (mkFrame [] []) "" ""
  end.

(** A sheet with two fixes one minute apart. *)
Definition short_stay : list (list string) :=
  [ ["EquipmentId"; "eventGeneratedTime"; "latitude"; "longitude"];
    ["V1"; "1609459200000"; "21.1458"; "79.0880"];
    ["V1"; "1609459260000"; "21.1459"; "79.0881"] ].

(** A sheet that has its header row and nothing else. *)
Definition header_only : list (list string) :=
  [ ["EquipmentId"; "eventGeneratedTime"; "latitude"; "longitude"] ].

(** A sheet without the time column. *)
Definition no_time_column : list (list string) :=
  [ ["EquipmentId"; "latitude"; "longitude"];
    ["V1"; "21.1458"; "79.0880"] ].

(** A prepared table that has neither identifier column. *)
Definition anonymous_table : GeoDataFrame :=
  mkGeo (mkFrame ["latitude"; "longitude"; "geometry"] []) "geometry" "EPSG:4326".

End Sample.

(** * Properties *)

(** ** Blocks *)

Lemma result_bind {A B : Type} (c : block A) (k : A -> block B) :
  result (bind c k) = match result c with
                      | Some a => result (k a)
                      | None => None
                      end.
Proof.
  destruct c as [out [a|]]; simpl; [|reflexivity].
  destruct (k a) as [out' b]; reflexivity.
Qed.

Lemma result_handled {A : Type} (err : message) (c : block A) :
  result (handled err c) = result c.
Proof. destruct c as [out [a|]]; reflexivity. Qed.

Lemma result_handled_lines {A : Type} (errs : list message) (c : block A) :
  result (handled_lines errs c) = result c.
Proof. destruct c as [out [a|]]; reflexivity. Qed.

Lemma result_require {B : Type} (b : bool) (k : unit -> block B) :
  result (bind (require b) k) = if b then result (k tt) else None.
Proof.
  rewrite result_bind; destruct b; reflexivity.
Qed.

Lemma result_say {B : Type} (m : message) (k : unit -> block B) :
  result (bind (say m) k) = result (k tt).
Proof. rewrite result_bind; reflexivity. Qed.

Lemma output_handled_raised {A : Type} (err : message) (c : block A) :
  result c = None -> In err (output (handled err c)).
Proof.
  destruct c as [out [a|]]; simpl; [discriminate|].
  intros _; apply in_or_app; right; left; reflexivity.
Qed.

Lemma output_bind_later {A B : Type} (c : block A) (k : A -> block B) a :
  result c = Some a -> forall m, In m (output (k a)) -> In m (output (bind c k)).
Proof.
  destruct c as [out [a'|]]; simpl; [|discriminate].
  intros [= ->] m Hm. destruct (k a) as [out' b]; simpl in *.
  apply in_or_app; right; exact Hm.
Qed.

(** ** Cells *)

Lemma lookup_overwrite_same c v cs :
  mentions c cs = true -> lookup c (overwrite c v cs) = v.
Proof.
  induction cs as [|[k x] cs IH]; simpl; [discriminate|].
  destruct (String.eqb c k) eqn:E; simpl.
  - rewrite E; reflexivity.
  - rewrite E; exact IH.
Qed.

Lemma lookup_overwrite_other c c' v cs :
  c <> c' -> lookup c (overwrite c' v cs) = lookup c cs.
Proof.
  intros Hne; induction cs as [|[k x] cs IH]; simpl; [reflexivity|].
  destruct (String.eqb c' k) eqn:E; simpl; rewrite IH; [|reflexivity].
  apply String.eqb_eq in E; subst k.
  apply String.eqb_neq in Hne; rewrite Hne; reflexivity.
Qed.

Lemma lookup_app c cs cs' :
  lookup c (cs ++ cs') = if mentions c cs then lookup c cs else lookup c cs'.
Proof.
  induction cs as [|[k x] cs IH]; simpl; [reflexivity|].
  destruct (String.eqb c k); simpl; [reflexivity|exact IH].
Qed.

Lemma lookup_set_cell_same c v cs : lookup c (set_cell c v cs) = v.
Proof.
  unfold set_cell; destruct (mentions c cs) eqn:E.
  - apply lookup_overwrite_same; exact E.
  - rewrite lookup_app, E; simpl; rewrite String.eqb_refl; reflexivity.
Qed.

Lemma lookup_unmentioned c cs : mentions c cs = false -> lookup c cs = VNone.
Proof.
  induction cs as [|[k x] cs IH]; simpl; [reflexivity|].
  destruct (String.eqb c k); simpl; [discriminate|exact IH].
Qed.

Lemma lookup_set_cell_other c c' v cs :
  c <> c' -> lookup c (set_cell c' v cs) = lookup c cs.
Proof.
  intros Hne; unfold set_cell; destruct (mentions c' cs).
  - apply lookup_overwrite_other; exact Hne.
  - rewrite lookup_app; destruct (mentions c cs) eqn:E; [reflexivity|].
    simpl. apply String.eqb_neq in Hne; rewrite Hne.
    symmetry; apply lookup_unmentioned; exact E.
Qed.

Lemma lookup_without_other c c' cs :
  c <> c' -> lookup c (without c' cs) = lookup c cs.
Proof.
  intros Hne; induction cs as [|[k x] cs IH]; simpl; [reflexivity|].
  destruct (String.eqb c' k) eqn:E; simpl.
  - apply String.eqb_eq in E; subst k.
    apply String.eqb_neq in Hne; rewrite Hne; exact IH.
  - rewrite IH; reflexivity.
Qed.

Lemma at_col_write_same c f r : at_col c (write c f r) = f r.
Proof. apply lookup_set_cell_same. Qed.

Lemma at_col_write_other c c' f r :
  c <> c' -> at_col c (write c' f r) = at_col c r.
Proof. apply lookup_set_cell_other. Qed.

Lemma at_col_reindex_other c c' r :
  c <> c' -> at_col c (reindex c' r) = at_col c r.
Proof. apply lookup_without_other. Qed.

(** ** Lists *)

Lemma filter_map_swap {A B : Type} (f : A -> B) (p : B -> bool) (l : list A) :
  filter p (map f l) = map f (filter (fun a => p (f a)) l).
Proof.
  induction l as [|a l IH]; simpl; [reflexivity|].
  destruct (p (f a)); simpl; rewrite IH; reflexivity.
Qed.

Lemma Permutation_filter_compat {A : Type} (p : A -> bool) (l l' : list A) :
  Permutation l l' -> Permutation (filter p l) (filter p l').
Proof.
  induction 1 as [|a l l' _ IH|a b l|l l' l'' _ IH1 _ IH2]; simpl.
  - constructor.
  - destruct (p a); [constructor|]; exact IH.
  - destruct (p a), (p b); try reflexivity. constructor.
  - etransitivity; eassumption.
Qed.

Lemma StronglySorted_map {A B : Type} (R : B -> B -> Prop) (f : A -> B) l :
  StronglySorted (fun a a' => R (f a) (f a')) l -> StronglySorted R (map f l).
Proof.
  induction 1 as [|a l _ IH Hall]; simpl; constructor; [exact IH|].
  rewrite Forall_forall in *; intros y Hy.
  apply in_map_iff in Hy as [x [<- Hx]]; apply Hall, Hx.
Qed.

(** ** The prepared table *)

Section Prepared.

Variable env : Env.

(** A successful preparation is the chain of its table operations. *)
Lemma prepare_rows df gdf :
  result (prepare env df) = Some gdf ->
  rows (frame gdf) =
    map (write "geometry" point_of)
      (filter (complete ["latitude"; "longitude"])
         (map (with_coordinates env) (IndexSort.sort (map (timed env) (rows df))))).
Proof.
  unfold prepare. rewrite result_say, result_handled.
  unfold series.
  repeat (rewrite result_require;
          match goal with
          | |- (if ?b then _ else _) = _ -> _ => destruct b; [|discriminate]
          end).
  rewrite result_say. simpl. intros [= <-]. simpl.
  unfold with_coordinates, timed. rewrite !map_map. reflexivity.
Qed.


Lemma at_col_timed c r :
  c <> "Timestamp" -> c <> "eventGeneratedTime" ->
  at_col c (timed env r) = at_col c r.
Proof.
  intros H1 H2; unfold timed.
  rewrite at_col_reindex_other, !at_col_write_other by assumption.
  reflexivity.
Qed.

Lemma latitude_with_coordinates r :
  at_col "latitude" (with_coordinates env r)
  = VNum (to_numeric env (at_col "latitude" r)).
Proof.
  unfold with_coordinates.
  rewrite at_col_write_other by discriminate.
  rewrite at_col_write_same. reflexivity.
Qed.

Lemma longitude_with_coordinates r :
  at_col "longitude" (with_coordinates env r)
  = VNum (to_numeric env (at_col "longitude" r)).
Proof.
  unfold with_coordinates.
  rewrite at_col_write_same. unfold numeric.
  rewrite at_col_write_other by discriminate. reflexivity.
Qed.

Lemma latitude_prepared r :
  at_col "latitude" (prepared_row env r)
  = VNum (to_numeric env (at_col "latitude" r)).
Proof.
  unfold prepared_row. rewrite at_col_write_other by discriminate.
  rewrite latitude_with_coordinates, at_col_timed by discriminate.
  reflexivity.
Qed.

Lemma longitude_prepared r :
  at_col "longitude" (prepared_row env r)
  = VNum (to_numeric env (at_col "longitude" r)).
Proof.
  unfold prepared_row. rewrite at_col_write_other by discriminate.
  rewrite longitude_with_coordinates, at_col_timed by discriminate.
  reflexivity.
Qed.

Lemma complete_coordinates r :
  complete ["latitude"; "longitude"] (with_coordinates env (timed env r))
  = coordinates_parse env r.
Proof.
  unfold complete, coordinates_parse; simpl.
  rewrite latitude_with_coordinates, longitude_with_coordinates.
  rewrite !at_col_timed by discriminate.
  destruct (to_numeric env (at_col "latitude" r)),
           (to_numeric env (at_col "longitude" r)); reflexivity.
Qed.

Lemma coordinates_parse_true r :
  coordinates_parse env r = true <->
  to_numeric env (at_col "latitude" r) <> None /\
  to_numeric env (at_col "longitude" r) <> None.
Proof.
  unfold coordinates_parse.
  destruct (to_numeric env (at_col "latitude" r)),
           (to_numeric env (at_col "longitude" r));
    (split; [intros H; try discriminate H; split; discriminate
            |intros [H1 H2]; try reflexivity; congruence]).
Qed.

(** The prepared rows are the sheet rows whose coordinates parse, each once,
    in some order. *)
Lemma prepared_rows_permutation df gdf :
  result (prepare env df) = Some gdf ->
  Permutation (rows (frame gdf))
    (map (prepared_row env) (filter (coordinates_parse env) (rows df))).
Proof.
  intros H. rewrite (prepare_rows _ _ H).
  set (kept := fun r => complete ["latitude"; "longitude"] (with_coordinates env r)).
  assert (E : map (prepared_row env) (filter (coordinates_parse env) (rows df))
              = map (write "geometry" point_of)
                  (map (with_coordinates env)
                     (filter kept (map (timed env) (rows df))))).
  { rewrite filter_map_swap, !map_map. unfold kept.
    rewrite (filter_ext _ _ complete_coordinates). reflexivity. }
  rewrite E, filter_map_swap.
  do 2 apply Permutation_map.
  apply Permutation_filter_compat.
  symmetry; apply IndexSort.Permuted_sort.
Qed.

(** C5.  After a successful preparation, a sheet row whose latitude or
    longitude does not parse as a number is absent from the prepared table,
    and a sheet row whose latitude and longitude both parse is present in
    it; the prepared rows are exactly the latter, each once. *)
Theorem coordinate_rows_kept_or_dropped df gdf :
  result (prepare env df) = Some gdf ->
  (forall r, In r (rows df) ->
     to_numeric env (at_col "latitude" r) = None \/
     to_numeric env (at_col "longitude" r) = None ->
     ~ In (prepared_row env r) (rows (frame gdf))) /\
  (forall r, In r (rows df) ->
     to_numeric env (at_col "latitude" r) <> None ->
     to_numeric env (at_col "longitude" r) <> None ->
     In (prepared_row env r) (rows (frame gdf))) /\
  Permutation (rows (frame gdf))
    (map (prepared_row env) (filter (coordinates_parse env) (rows df))).
Proof.
  intros H. pose proof (prepared_rows_permutation _ _ H) as P.
  split; [|split; [|exact P]].
  - intros r _ Hbad Hin.
    apply (Permutation_in _ P) in Hin.
    apply in_map_iff in Hin as [r0 [E Hr0]].
    apply filter_In in Hr0 as [_ Hok].
    apply coordinates_parse_true in Hok as [Hlat Hlon].
    assert (Elat : at_col "latitude" (prepared_row env r0)
                   = at_col "latitude" (prepared_row env r)) by (rewrite E; reflexivity).
    assert (Elon : at_col "longitude" (prepared_row env r0)
                   = at_col "longitude" (prepared_row env r)) by (rewrite E; reflexivity).
    rewrite !latitude_prepared in Elat. rewrite !longitude_prepared in Elon.
    injection Elat as Elat. injection Elon as Elon.
    destruct Hbad as [Hb|Hb]; congruence.
  - intros r Hr Hlat Hlon.
    apply (Permutation_in _ (Permutation_sym P)).
    apply in_map, filter_In. split; [exact Hr|].
    apply coordinates_parse_true; split; assumption.
Qed.

(** A sheet row whose time does not parse is kept all the same when its
    coordinates parse; its index is NaT. *)
Lemma unparsed_time_row_survives df gdf r :
  result (prepare env df) = Some gdf ->
  In r (rows df) ->
  to_numeric env (at_col "eventGeneratedTime" r) = None ->
  coordinates_parse env r = true ->
  In (prepared_row env r) (rows (frame gdf)) /\
  label (prepared_row env r) = VTime None.
Proof.
  intros H Hr Ht Hc. split.
  - apply (Permutation_in _ (Permutation_sym (prepared_rows_permutation _ _ H))).
    apply in_map, filter_In; split; assumption.
  - unfold prepared_row, with_coordinates, timed; simpl.
    rewrite at_col_write_same. unfold parsed_time.
    rewrite at_col_write_same. unfold numeric. rewrite Ht. reflexivity.
Qed.

End Prepared.

(** ** Time order *)

Lemma ts_le_trans a b c : ts_le a b -> ts_le b c -> ts_le a c.
Proof.
  unfold ts_le, ts_leb.
  destruct a as [x|], b as [y|], c as [z|]; try discriminate; try reflexivity.
  rewrite !Z.leb_le; lia.
Qed.

Lemma sorted_rows_chronological (l : list Row) :
  StronglySorted (fun r r' => ts_le (time_of (label r)) (time_of (label r'))) l ->
  chronological (mkFrame [] l).
Proof. intros H; apply StronglySorted_map in H; exact H. Qed.

Lemma sort_rows_sorted (l : list Row) :
  StronglySorted (fun r r' => ts_le (time_of (label r)) (time_of (label r')))
                 (IndexSort.sort l).
Proof.
  apply (IndexSort.StronglySorted_sort l).
  intros r1 r2 r3; apply ts_le_trans.
Qed.

(** [sort_index] leaves the index in time order. *)
Lemma sort_index_chronological df : chronological (sort_index df).
Proof. apply (sorted_rows_chronological _ (sort_rows_sorted (rows df))). Qed.

(** [dropna] keeps the index in time order. *)
Lemma dropna_chronological subset df :
  chronological df -> chronological (dropna subset df).
Proof.
  unfold chronological, index_times; simpl.
  generalize (complete subset); intros p.
  induction (rows df) as [|r l IH]; simpl; intros H; [constructor|].
  inversion H as [|? ? Hl Hall]; subst.
  destruct (p r); simpl; [|exact (IH Hl)].
  constructor; [exact (IH Hl)|].
  rewrite Forall_forall in *; intros t Ht.
  apply Hall. apply in_map_iff in Ht as [x [<- Hx]].
  apply filter_In in Hx as [Hx _].
  apply (in_map (fun r => time_of (label r))), Hx.
Qed.

(** Writing a column does not touch the index. *)
Lemma assign_chronological c f df :
  chronological df -> chronological (assign c f df).
Proof.
  unfold chronological, index_times; simpl.
  rewrite map_map; simpl. exact (fun H => H).
Qed.

Lemma parsed_times_sorted df :
  chronological df -> StronglySorted Z.le (parsed_times df).
Proof.
  unfold chronological, parsed_times.
  induction (index_times df) as [|t l IH]; simpl; intros H; [constructor|].
  inversion H as [|? ? Hl Hall]; subst.
  destruct t as [z|]; simpl; [|exact (IH Hl)].
  constructor; [exact (IH Hl)|].
  rewrite Forall_forall in *; intros z' Hz'.
  apply in_flat_map in Hz' as [[y|] [Hy Hin]]; simpl in Hin; [|contradiction].
  destruct Hin as [<-|[]].
  specialize (Hall _ Hy). unfold ts_le in Hall; simpl in Hall.
  apply Z.leb_le; exact Hall.
Qed.

(** C7.  The prepared table is ordered by its parsed timestamp: the index is
    non-decreasing (rows whose timestamp is NaT, which have no place in the
    order, come last), the timestamps that did parse are non-decreasing as
    numbers, and dropping rows with missing cells keeps any table in time
    order. *)
Theorem prepared_table_time_ordered env df gdf :
  result (prepare env df) = Some gdf ->
  chronological (frame gdf) /\
  StronglySorted Z.le (parsed_times (frame gdf)) /\
  (forall subset d, chronological d -> chronological (dropna subset d)).
Proof.
  intros H.
  assert (C : chronological (frame gdf)).
  { unfold chronological, index_times. rewrite (prepare_rows _ _ _ H).
    set (sorted := sort_index (mkFrame [] (map (timed env) (rows df)))).
    change (chronological
              (assign "geometry" point_of
                 (dropna ["latitude"; "longitude"]
                    (mkFrame [] (map (with_coordinates env) (rows sorted)))))).
    apply assign_chronological, dropna_chronological.
    unfold chronological, index_times; simpl. rewrite map_map; simpl.
    exact (sort_index_chronological (mkFrame [] (map (timed env) (rows df)))). }
  split; [exact C|split].
  - apply parsed_times_sorted, C.
  - intros subset d; apply dropna_chronological.
Qed.

(** ** Doubles *)

Section Doubles.

Local Open Scope Q_scope.

Lemma pow2_pos (e : Z) : 0 < 2 ^ e.
Proof. apply Qpower_0_lt. reflexivity. Qed.

Lemma pow2_nat (n : Z) : (0 <= n)%Z -> inject_Z (2 ^ n) == 2 ^ n.
Proof. intros H. rewrite Zpower_Qpower by exact H. reflexivity. Qed.

Lemma ilog2_lower (q : Q) : 0 < q -> 2 ^ ilog2 q <= q.
Proof.
  intros Hq. unfold ilog2.
  set (a := Qnum q). set (b := Qden q).
  set (k := (Z.log2 a - Z.log2 (Zpos b))%Z).
  destruct (Qle_bool (2 ^ k) q) eqn:E; [apply Qle_bool_iff, E|].
  assert (Ha : (0 < a)%Z).
  { unfold Qlt in Hq; simpl in Hq. unfold a. lia. }
  pose proof (Z.log2_spec a Ha) as [Hla _].
  pose proof (Z.log2_spec (Zpos b) eq_refl) as [_ Hlb].
  pose proof (Z.log2_nonneg a) as Na. pose proof (Z.log2_nonneg (Zpos b)) as Nb.
  replace (k - 1)%Z with (Z.log2 a - Z.succ (Z.log2 (Z.pos b)))%Z by (unfold k; lia).
  rewrite Qpower_minus by discriminate.
  rewrite <- !pow2_nat by lia.
  assert (Eq : q == inject_Z a / inject_Z (Zpos b)).
  { unfold a, b. destruct q as [n d]; simpl. apply Qmake_Qdiv. }
  rewrite Eq.
  assert (H1 : inject_Z (2 ^ Z.log2 a) <= inject_Z a) by (rewrite <- Zle_Qle; exact Hla).
  assert (H2 : inject_Z (Zpos b) < inject_Z (2 ^ Z.succ (Z.log2 (Zpos b))))
    by (rewrite <- Zlt_Qlt; exact Hlb).
  assert (H3 : 0 < inject_Z (Zpos b)) by reflexivity.
  assert (H4 : 0 < inject_Z (2 ^ Z.log2 a)).
  { rewrite pow2_nat by lia. apply pow2_pos. }
  set (A := inject_Z a) in *. set (B := inject_Z (Zpos b)) in *.
  set (PA := inject_Z (2 ^ Z.log2 a)) in *.
  set (PB := inject_Z (2 ^ Z.succ (Z.log2 (Zpos b)))) in *.
  apply Qle_shift_div_r; [lra|].
  apply Qle_trans with (A / B * B); [|apply Qmult_le_l; [|lra]].
  - field_simplify; [lra|lra].
  - apply Qlt_shift_div_l; lra.
Qed.

Lemma round_half_even_close (q : Q) :
  (Qabs (inject_Z (round_half_even q) - q) <= 1 # 2)%Q.
Proof.
  unfold round_half_even.
  pose proof (Qfloor_le q) as Hlo. pose proof (Qlt_floor q) as Hhi.
  rewrite inject_Z_plus in Hhi. change (inject_Z 1) with 1%Q in Hhi.
  destruct (Qcompare (q - inject_Z (Qfloor q)) (1 # 2)) eqn:C.
  - apply Qeq_alt in C. apply Qabs_Qle_condition.
    destruct (Z.even (Qfloor q));
      [|rewrite inject_Z_plus; change (inject_Z 1) with 1%Q]; split; lra.
  - apply Qlt_alt in C. apply Qabs_Qle_condition. split; lra.
  - apply Qgt_alt in C. apply Qabs_Qle_condition.
    rewrite inject_Z_plus. change (inject_Z 1) with 1%Q. split; lra.
Qed.

Lemma round_half_even_ge (n : Z) (y : Q) :
  inject_Z n <= y -> (n <= round_half_even y)%Z.
Proof.
  intros H. apply Qfloor_resp_le in H. rewrite Qfloor_Z in H.
  unfold round_half_even.
  destruct (Qcompare (y - inject_Z (Qfloor y)) (1 # 2));
    [destruct (Z.even (Qfloor y))| |]; lia.
Qed.

Lemma RN_value (x : Q) :
  RN x == inject_Z (round_half_even (x / 2 ^ ulp_exponent x)) * 2 ^ ulp_exponent x.
Proof. unfold RN. cbv zeta. apply Qred_correct. Qed.

Lemma RN_half_ulp (x : Q) :
  Qabs (RN x - x) <= (1 # 2) * 2 ^ ulp_exponent x.
Proof.
  rewrite RN_value. set (e := ulp_exponent x).
  pose proof (pow2_pos e) as He.
  pose proof (round_half_even_close (x / 2 ^ e)) as H.
  set (m := inject_Z (round_half_even (x / 2 ^ e))) in *.
  assert (E : m * 2 ^ e - x == (m - x / 2 ^ e) * 2 ^ e) by (field; lra).
  rewrite E, Qabs_Qmult, (Qabs_pos (2 ^ e)) by lra.
  apply Qmult_le_compat_r; lra.
Qed.

Lemma RN_zero (x : Q) : x == 0 -> RN x == 0.
Proof.
  intros Hx. rewrite RN_value. set (e := ulp_exponent x).
  assert (Hy : x / 2 ^ e == 0) by (rewrite Hx; unfold Qdiv; ring).
  assert (Hm : round_half_even (x / 2 ^ e) = 0%Z).
  { pose proof (round_half_even_close (x / 2 ^ e)) as H.
    apply Qabs_Qle_condition in H as [H1 H2].
    assert (L : inject_Z (-1) < inject_Z (round_half_even (x / 2 ^ e))).
    { change (inject_Z (-1)) with (-1). lra. }
    assert (U : inject_Z (round_half_even (x / 2 ^ e)) < inject_Z 1).
    { change (inject_Z 1) with 1. lra. }
    rewrite <- Zlt_Qlt in L, U. lia. }
  rewrite Hm. ring.
Qed.

(** The rounding error of a double: half a unit in the last place. *)
Lemma RN_error (x : Q) :
  Qabs (RN x - x) <= Qabs x * 2 ^ (-53) + 2 ^ (-1075).
Proof.
  pose proof (Qabs_nonneg x) as Hx. pose proof (pow2_pos (-53)) as P53.
  pose proof (pow2_pos (-1075)) as P1075.
  destruct (Qeq_dec x 0) as [Z0|NZ].
  - assert (E : RN x - x == 0) by (rewrite (RN_zero x Z0), Z0; reflexivity).
    rewrite E. change (Qabs 0) with 0.
    assert (0 <= Qabs x * 2 ^ (-53)) by (apply Qmult_le_0_compat; lra).
    lra.
  - apply Qle_trans with ((1 # 2) * 2 ^ ulp_exponent x); [apply RN_half_ulp|].
    unfold ulp_exponent.
    destruct (Z.max_spec (ilog2 (Qabs x) - 52) (-1074)) as [[_ ->]|[_ ->]].
    + change ((1 # 2) * 2 ^ (-1074)) with ((1 # 2) * 2 ^ (-1075 + 1)).
      rewrite Qpower_plus by discriminate.
      change (2 ^ 1) with 2. assert (0 <= Qabs x * 2 ^ (-53)) by (apply Qmult_le_0_compat; lra).
      lra.
    + assert (Hpos : 0 < Qabs x).
      { destruct (Qlt_le_dec 0 (Qabs x)) as [H|H]; [exact H|].
        exfalso. apply NZ. apply Qabs_Qle_condition in H. lra. }
      pose proof (ilog2_lower _ Hpos) as L.
      replace (ilog2 (Qabs x) - 52)%Z with (ilog2 (Qabs x) + (-53) + 1)%Z by lia.
      rewrite !Qpower_plus by discriminate. change (2 ^ 1) with 2.
      assert (M : 2 ^ ilog2 (Qabs x) * 2 ^ (-53) <= Qabs x * 2 ^ (-53))
        by (apply Qmult_le_compat_r; lra).
      lra.
Qed.

(** Rounding to a double does not fall below an integer that the exact
    value reaches. *)
Lemma RN_ge_integer (n : Z) (x : Q) :
  (0 < n <= 2 ^ 53)%Z -> inject_Z n <= x -> inject_Z n <= RN x.
Proof.
  intros [Hn0 Hn] Hx.
  assert (Hn0' : 0 < inject_Z n) by (change 0 with (inject_Z 0); rewrite <- Zlt_Qlt; exact Hn0).
  assert (Hpos : 0 < x) by lra.
  rewrite RN_value. set (e := ulp_exponent x).
  pose proof (pow2_pos e) as He.
  destruct (Z_le_gt_dec e 0) as [Hle|Hgt].
  - (* the grid is at least as fine as the integers *)
    assert (Einv : 2 ^ (- e) * 2 ^ e == 1).
    { rewrite <- Qpower_plus by discriminate.
      replace (- e + e)%Z with 0%Z by lia. reflexivity. }
    assert (EN : inject_Z (n * 2 ^ (- e)) == inject_Z n * 2 ^ (- e)).
    { rewrite inject_Z_mult, pow2_nat by lia. reflexivity. }
    assert (Hy : inject_Z (n * 2 ^ (- e)) <= x / 2 ^ e).
    { rewrite EN. apply Qle_shift_div_l; [exact He|].
      rewrite <- Qmult_assoc, Einv. lra. }
    apply round_half_even_ge in Hy. rewrite Zle_Qle, EN in Hy.
    apply Qle_trans with (inject_Z n * 2 ^ (- e) * 2 ^ e).
    + rewrite <- Qmult_assoc, Einv. lra.
    + apply Qmult_le_compat_r; lra.
  - (* the value is beyond 2^53 *)
    assert (Ee : e = (ilog2 (Qabs x) - 52)%Z) by (unfold e, ulp_exponent in *; lia).
    assert (L : 2 ^ ilog2 (Qabs x) <= x).
    { rewrite <- (Qabs_pos x) at 2 by lra. apply ilog2_lower.
      rewrite Qabs_pos; lra. }
    replace (ilog2 (Qabs x)) with (52 + e)%Z in L by lia.
    rewrite Qpower_plus in L by discriminate.
    assert (Hy : inject_Z (2 ^ 52) <= x / 2 ^ e).
    { rewrite pow2_nat by lia. apply Qle_shift_div_l; [exact He|exact L]. }
    apply round_half_even_ge in Hy. rewrite Zle_Qle in Hy.
    assert (H2 : 2 <= 2 ^ e).
    { change 2 with (2 ^ 1) at 1. apply Qpower_le_compat_l; [lia|discriminate]. }
    assert (Hn' : inject_Z n <= inject_Z (2 ^ 53)) by (rewrite <- Zle_Qle; exact Hn).
    change (inject_Z (2 ^ 53)) with (inject_Z (2 ^ 52) * 2) in Hn'.
    assert (P : 0 < inject_Z (2 ^ 52)) by reflexivity.
    apply Qle_trans with (inject_Z (2 ^ 52) * 2 ^ e).
    + apply Qle_trans with (inject_Z (2 ^ 52) * 2); [exact Hn'|].
      apply Qmult_le_l; lra.
    + apply Qmult_le_compat_r; lra.
Qed.

Lemma round2_close (q : Q) : Qabs (round2 q - q) <= 1 # 200.
Proof.
  unfold round2. pose proof (round_half_even_close (q * 100)) as H.
  apply Qabs_Qle_condition in H as [H1 H2].
  apply Qabs_Qle_condition.
  set (z := inject_Z (round_half_even (q * 100))) in *.
  assert (E : z / 100 == z * (1 # 100)) by (unfold Qdiv; reflexivity).
  rewrite E. split; lra.
Qed.

End Doubles.

(** ** Drawing the map *)

Section Drawing.

Variable env : Env.

Lemma markers_app m cs :
  markers (mkMap (location m) (zoom_start m) (children m ++ cs))
  = markers m ++ markers (mkMap (location m) (zoom_start m) cs).
Proof. unfold markers; simpl. apply flat_map_app. Qed.

Lemma markers_pins c z ks : markers (mkMap c z (map Pin ks)) = ks.
Proof.
  unfold markers; simpl. induction ks as [|k ks IH]; simpl; [|rewrite IH]; reflexivity.
Qed.

Lemma add_markers_spec rs : forall m m',
  add_markers env rs m = Some m' ->
  exists ks, Forall2 (fun r k => stoppage_marker env r = Some k) rs ks /\
             m' = mkMap (location m) (zoom_start m) (children m ++ map Pin ks).
Proof.
  induction rs as [|r rs IH]; simpl; intros m m' H.
  - injection H as <-. exists []; split; [constructor|].
    simpl; rewrite app_nil_r; destruct m; reflexivity.
  - destruct (stoppage_marker env r) as [k|] eqn:E; [|discriminate].
    apply IH in H as [ks [F ->]]. exists (k :: ks); split.
    + constructor; assumption.
    + simpl. rewrite <- app_assoc. reflexivity.
Qed.

Lemma add_markers_total rs ks :
  Forall2 (fun r k => stoppage_marker env r = Some k) rs ks ->
  forall m, add_markers env rs m
            = Some (mkMap (location m) (zoom_start m) (children m ++ map Pin ks)).
Proof.
  induction 1 as [|r k rs ks E _ IH]; simpl; intros m.
  - rewrite app_nil_r; destruct m; reflexivity.
  - rewrite E, IH. simpl. rewrite <- app_assoc. reflexivity.
Qed.

(** The map before the stoppage markers are added. *)
Lemma add_path_result gdf m :
  result (add_path gdf m)
  = Some (if empty (frame gdf) then m else add_to (Line (vehicle_path gdf)) m).
Proof. unfold add_path; destruct (empty (frame gdf)); reflexivity. Qed.


Lemma visualize_result gdf sp :
  result (visualize env gdf sp)
  = match result (add_stoppages env sp
                    (if empty (frame gdf) then mkMap (map_center env gdf) 12 []
                     else add_to (Line (vehicle_path gdf))
                            (mkMap (map_center env gdf) 12 []))) with
    | Some m => if save env output_map_file m then Some (output_map_file, m) else None
    | None => None
    end.
Proof.
  unfold visualize. rewrite result_say, result_handled, result_bind.
  rewrite add_path_result, result_bind.
  destruct (result (add_stoppages env sp _)) as [m|]; [|reflexivity].
  rewrite result_require. destruct (save env output_map_file m); reflexivity.
Qed.






End Drawing.

(** ** The stoppage table *)

Lemma string_app_assoc (a b c : string) :
  ((a ++ b) ++ c)%string = (a ++ (b ++ c))%string.
Proof. induction a as [|x a IH]; simpl; [|rewrite IH]; reflexivity. Qed.

(** A stop point as a row of the stoppage table. *)
Lemma stoppage_row_cells (s : StopPoint) :
  let row := write "duration_minutes" minutes_of (stop_row s) in
  at_col "geometry" row = VPoint (stop_geometry s) /\
  at_col "start_time" row = VTime (Some (start_time s)) /\
  at_col "end_time" row = VTime (Some (end_time s)) /\
  at_col "duration_s" row = VNum (Some (duration_s s)) /\
  at_col "duration_minutes" row = VNum (Some (float_div (duration_s s) 60)).
Proof. repeat split. Qed.

Lemma stop_rows_divisible pts : forallb divisible (map stop_row pts) = true.
Proof. induction pts as [|s pts IH]; simpl; [|rewrite IH]; reflexivity. Qed.

Lemma add_duration_minutes_stop_frame pts :
  result (add_duration_minutes (stop_frame pts))
  = Some (with_frame (stop_frame pts)
            (assign "duration_minutes" minutes_of (frame (stop_frame pts)))).
Proof.
  unfold add_duration_minutes, series.
  rewrite result_require; simpl.
  rewrite result_require, stop_rows_divisible. reflexivity.
Qed.

Lemma detect_result (env : Env) gdf :
  result (detect env gdf)
  = if empty (frame gdf) then Some empty_stop_points
    else match get_stop_points env gdf (trajectory_id_col gdf)
                 (timedelta_minutes STOPPAGE_THRESHOLD_MINUTES)
                 max_diameter_meters with
         | None => None
         | Some [] => Some (stop_frame [])
         | Some pts =>
             Some (with_frame (stop_frame pts)
                     (assign "duration_minutes" minutes_of (frame (stop_frame pts))))
         end.
Proof.
  unfold detect. rewrite result_say, result_handled.
  destruct (empty (frame gdf)); [reflexivity|].
  rewrite result_bind.
  destruct (get_stop_points env gdf _ _ _) as [pts|]; [|reflexivity].
  simpl result at 1. cbv beta iota.
  destruct pts as [|s pts]; [reflexivity|].
  change (negb (empty (frame (stop_frame (s :: pts))))) with true. cbv iota.
  rewrite result_bind, add_duration_minutes_stop_frame. reflexivity.
Qed.

(** The rows of a detected stoppage table are the stop points of the
    detector with their duration in minutes added. *)
Lemma detect_rows (env : Env) gdf sp :
  result (detect env gdf) = Some sp ->
  exists pts,
    rows (frame sp) = map (write "duration_minutes" minutes_of) (map stop_row pts) /\
    (empty (frame sp) = true -> pts = []).
Proof.
  rewrite detect_result.
  destruct (empty (frame gdf)).
  - intros [= <-]; exists []; split; reflexivity.
  - destruct (get_stop_points env gdf _ _ _) as [[|s pts]|]; [| |discriminate].
    + intros [= <-]; exists []; split; reflexivity.
    + intros [= <-]; exists (s :: pts); split; [reflexivity|discriminate].
Qed.

(** ** Markers *)

Section Markers.

Variable env : Env.

Lemma popup_contains_reach_time a b d : contains (popup_html a b d) a.
Proof.
  unfold popup_html.
  exists (nl ++ indent ++ "<b>Stoppage Details</b><br>" ++
          nl ++ indent ++ "-----------------------------<br>" ++
          nl ++ indent ++ "<b>Reach Time:</b> ")%string.
  eexists. rewrite !string_app_assoc. reflexivity.
Qed.

Lemma popup_contains_end_time a b d : contains (popup_html a b d) b.
Proof.
  unfold popup_html.
  exists (nl ++ indent ++ "<b>Stoppage Details</b><br>" ++
          nl ++ indent ++ "-----------------------------<br>" ++
          nl ++ indent ++ "<b>Reach Time:</b> " ++ a ++ "<br>" ++
          nl ++ indent ++ "<b>End Time:</b> ")%string.
  eexists. rewrite !string_app_assoc. reflexivity.
Qed.

Lemma popup_contains_duration a b d :
  contains (popup_html a b d) ("<b>Duration:</b> " ++ d ++ " minutes").
Proof.
  unfold popup_html.
  exists (nl ++ indent ++ "<b>Stoppage Details</b><br>" ++
          nl ++ indent ++ "-----------------------------<br>" ++
          nl ++ indent ++ "<b>Reach Time:</b> " ++ a ++ "<br>" ++
          nl ++ indent ++ "<b>End Time:</b> " ++ b ++ "<br>" ++
          nl ++ indent)%string.
  exists (nl ++ indent)%string. rewrite !string_app_assoc. reflexivity.
Qed.

Lemma contains_inside (s a sub b : string) :
  contains s (a ++ sub ++ b) -> contains s sub.
Proof.
  intros [before [after ->]].
  exists (before ++ a)%string, (b ++ after)%string.
  rewrite !string_app_assoc. reflexivity.
Qed.

(** The marker drawn for one stop point of the detector. *)
Lemma stoppage_marker_stop (s : StopPoint) :
  exists k,
    stoppage_marker env (write "duration_minutes" minutes_of (stop_row s)) = Some k /\
    marker_location k = (py (stop_geometry s), px (stop_geometry s)) /\
    html (popup k)
    = popup_html (strftime env time_format (start_time s))
                 (strftime env time_format (end_time s))
                 (float_str env (Some (py_round2 (float_div (duration_s s) 60)))).
Proof. eexists; repeat split. Qed.

(** What [round(x, 2)] returns: the double nearest to a whole number of
    hundredths that is within half a hundredth of [x]. *)
Lemma py_round2_hundredths (x : Q) :
  exists hundredths : Z,
    py_round2 x = RN (inject_Z hundredths / 100) /\
    (Qabs (inject_Z hundredths / 100 - x) <= 1 # 200)%Q /\
    (Qabs (py_round2 x - inject_Z hundredths / 100)
     <= Qabs (inject_Z hundredths / 100) * 2 ^ (-53) + 2 ^ (-1075))%Q.
Proof.
  exists (round_half_even (x * 100)). split; [reflexivity|]. split.
  - apply round2_close.
  - apply RN_error.
Qed.

Lemma stoppage_markers_exist (pts : list StopPoint) :
  exists ks,
    Forall2 (fun s k =>
               stoppage_marker env (write "duration_minutes" minutes_of (stop_row s))
               = Some k) pts ks.
Proof.
  induction pts as [|s pts [ks IH]].
  - exists []; constructor.
  - destruct (stoppage_marker_stop s) as [k [E _]].
    exists (k :: ks); constructor; assumption.
Qed.

Lemma Forall2_map_left {A B C : Type} (f : A -> B) (P : B -> C -> Prop) l ks :
  Forall2 (fun a k => P (f a) k) l ks -> Forall2 P (map f l) ks.
Proof. induction 1; simpl; constructor; assumption. Qed.

Lemma Forall2_weaken {A B : Type} (P Q : A -> B -> Prop) l ks :
  (forall a k, P a k -> Q a k) -> Forall2 P l ks -> Forall2 Q l ks.
Proof. intros H; induction 1; constructor; auto. Qed.


Lemma add_stoppages_result sp pts m :
  rows (frame sp) = map (write "duration_minutes" minutes_of) (map stop_row pts) ->
  (empty (frame sp) = true -> pts = []) ->
  exists ks,
    result (add_stoppages env sp m)
    = Some (mkMap (location m) (zoom_start m) (children m ++ map Pin ks)) /\
    Forall2 (fun s k =>
               stoppage_marker env (write "duration_minutes" minutes_of (stop_row s))
               = Some k) pts ks.
Proof.
  intros Hrows Hempty. unfold add_stoppages.
  destruct (empty (frame sp)) eqn:E; simpl.
  - rewrite (Hempty eq_refl). exists []; split; [|constructor].
    simpl; rewrite app_nil_r; destruct m; reflexivity.
  - destruct (stoppage_markers_exist pts) as [ks F]. exists ks; split; [|exact F].
    rewrite result_bind, Hrows, map_map.
    rewrite (add_markers_total env _ ks); [reflexivity|].
    apply Forall2_map_left, F.
Qed.

(** C9.  When the document can be written, the map step yields a document
    with exactly one marker per row of the stoppage table, in the order of
    the rows; the marker stands at the row's point, and its popup contains
    the start time and the end time formatted with ['%Y-%m-%d %H:%M:%S'] and
    the duration in minutes rounded to two decimals: a float within its
    rounding error of a whole number of hundredths that is within half a
    hundredth of the row's [duration_minutes]. *)
Theorem one_marker_per_stoppage gdf sp :
  result (detect env gdf) = Some sp ->
  (forall m, save env output_map_file m = true) ->
  exists doc,
    result (visualize env gdf sp) = Some (output_map_file, doc) /\
    Forall2 (fun row k =>
               exists p t0 t1 d (hundredths : Z) (shown : Q),
                 at_col "geometry" row = VPoint p /\
                 at_col "start_time" row = VTime (Some t0) /\
                 at_col "end_time" row = VTime (Some t1) /\
                 at_col "duration_minutes" row = VNum (Some d) /\
                 marker_location k = (py p, px p) /\
                 contains (html (popup k)) (strftime env "%Y-%m-%d %H:%M:%S" t0) /\
                 contains (html (popup k)) (strftime env "%Y-%m-%d %H:%M:%S" t1) /\
                 contains (html (popup k)) (float_str env (Some shown)) /\
                 (Qabs (inject_Z hundredths / 100 - d) <= 1 # 200)%Q /\
                 (Qabs (shown - inject_Z hundredths / 100)
                  <= Qabs (inject_Z hundredths / 100) * 2 ^ (-53)
                     + 2 ^ (-1075))%Q)
            (rows (frame sp)) (markers doc).
Proof.
  intros H Hsave.
  destruct (detect_rows _ _ _ H) as [pts [Hrows Hempty]].
  rewrite visualize_result.
  set (m0 := if empty (frame gdf) then mkMap (map_center env gdf) 12 []
             else add_to (Line (vehicle_path gdf)) (mkMap (map_center env gdf) 12 [])).
  assert (Hm0 : markers m0 = []) by (unfold m0; destruct (empty (frame gdf)); reflexivity).
  destruct (add_stoppages_result sp pts m0 Hrows Hempty) as [ks [-> F]].
  rewrite Hsave. eexists; split; [reflexivity|].
  rewrite markers_app, Hm0, markers_pins; simpl.
  rewrite Hrows, map_map. apply Forall2_map_left.
  refine (Forall2_weaken _ _ _ _ _ F). intros s k E.
  destruct (stoppage_marker_stop s) as [k' (E' & Hloc & Hhtml)].
  rewrite E in E'; injection E' as <-.
  destruct (stoppage_row_cells s) as (Hg & H0 & H1 & _ & Hd).
  destruct (py_round2_hundredths (float_div (duration_s s) 60))
    as (h & _ & Hclose & Herr).
  exists (stop_geometry s), (start_time s), (end_time s),
         (float_div (duration_s s) 60), h,
         (py_round2 (float_div (duration_s s) 60)).
  rewrite Hhtml. repeat split; try assumption.
  - apply popup_contains_reach_time.
  - apply popup_contains_end_time.
  - apply (contains_inside _ "<b>Duration:</b> " _ " minutes"),
      popup_contains_duration.
Qed.

End Markers.

(** ** The run as a whole *)

Section Run.

Variable env : Env.

Lemma run_how :
  how (run env)
  = match result (load env) with
    | None => Exited
    | Some df =>
        match result (prepare env df) with
        | None => Exited
        | Some gdf =>
            match result (detect env gdf) with
            | None => Exited
            | Some _ => Completed
            end
        end
    end.
Proof.
  unfold run, result.
  destruct (load env) as [o1 [df|]]; simpl; [|reflexivity].
  destruct (prepare env df) as [o2 [gdf|]]; simpl; [|reflexivity].
  destruct (detect env gdf) as [o3 [sp|]]; simpl; [|reflexivity].
  destruct (visualize env gdf sp); reflexivity.
Qed.

Lemma run_visualized df gdf sp :
  result (load env) = Some df ->
  result (prepare env df) = Some gdf ->
  result (detect env gdf) = Some sp ->
  how (run env) = Completed /\
  saved (run env) = result (visualize env gdf sp) /\
  (forall m, In m (output (visualize env gdf sp)) -> In m (printed (run env))).
Proof.
  unfold run, result, output.
  destruct (load env) as [o1 [df'|]]; simpl; [|discriminate]. intros [= ->].
  destruct (prepare env df) as [o2 [gdf'|]]; simpl; [|discriminate]. intros [= ->].
  destruct (detect env gdf) as [o3 [sp'|]]; simpl; [|discriminate]. intros [= ->].
  destruct (visualize env gdf sp) as [o4 doc]; simpl.
  repeat split. intros m Hm. rewrite !in_app_iff; auto.
Qed.

Lemma visualize_reports_failure gdf sp :
  result (visualize env gdf sp) = None ->
  In ErrorVisualizing (output (visualize env gdf sp)).
Proof.
  unfold visualize. rewrite result_say, result_handled. intros H.
  apply (output_bind_later _ _ tt); [reflexivity|].
  apply output_handled_raised, H.
Qed.

(** Without a coordinate pair that parses, the prepared table is empty. *)
Lemma no_valid_coordinates_empty df gdf :
  result (prepare env df) = Some gdf ->
  valid_coordinates env df = [] -> empty (frame gdf) = true.
Proof.
  intros H Hnone.
  pose proof (prepared_rows_permutation _ _ _ H) as P.
  assert (E : filter (coordinates_parse env) (rows df) = []).
  { clear P H. revert Hnone. unfold valid_coordinates, coordinates_parse.
    induction (rows df) as [|r l IH]; simpl; [reflexivity|].
    destruct (to_numeric env (at_col "latitude" r)),
             (to_numeric env (at_col "longitude" r)); simpl;
      try discriminate; exact IH. }
  rewrite E in P; simpl in P. apply Permutation_sym, Permutation_nil in P.
  unfold empty; rewrite P; simpl. apply orb_true_r.
Qed.

(** C2.  When the prepared table is empty, the stoppage table is the empty
    table built by the script, and, the file being writable, the run
    completes and saves to the output file a map centred on the fallback
    coordinate that carries no marker (and no path). *)
Theorem empty_table_still_draws_map df gdf :
  result (load env) = Some df ->
  result (prepare env df) = Some gdf ->
  empty (frame gdf) = true ->
  save env output_map_file (mkMap fallback_center 12 []) = true ->
  result (detect env gdf) = Some empty_stop_points /\
  how (run env) = Completed /\
  exists doc,
    saved (run env) = Some (output_map_file, doc) /\
    location doc = (Some (200827 # 10000), Some (789629 # 10000)) /\
    markers doc = [] /\
    children doc = [].
Proof.
  intros Hload Hprep Hempty Hsave.
  assert (Hdet : result (detect env gdf) = Some empty_stop_points).
  { rewrite detect_result, Hempty. reflexivity. }
  destruct (run_visualized _ _ _ Hload Hprep Hdet) as (Hhow & Hsaved & _).
  split; [exact Hdet|split; [exact Hhow|]].
  exists (mkMap fallback_center 12 []).
  rewrite Hsaved, visualize_result.
  unfold map_center. rewrite Hempty. simpl. rewrite Hsave.
  repeat split.
Qed.

(** C4, as the script has it.  The run ends in [exit()] exactly when the
    load, the preparation or the stoppage detection raised, and it runs to
    its last line otherwise, also when no stoppage was found; a failure of
    the map step is printed and the run still completes, without a saved
    document. *)
Theorem exits_exactly_on_stage_failure :
  (how (run env) = Exited <->
   load_failed env \/ prepare_failed env \/ detect_failed env) /\
  (forall df gdf sp,
     result (load env) = Some df ->
     result (prepare env df) = Some gdf ->
     result (detect env gdf) = Some sp ->
     how (run env) = Completed) /\
  (visualize_failed env ->
   how (run env) = Completed /\
   In ErrorVisualizing (printed (run env)) /\
   saved (run env) = None).
Proof.
  split; [|split].
  - rewrite run_how. unfold load_failed, prepare_failed, detect_failed.
    destruct (result (load env)) as [df|] eqn:El.
    + destruct (result (prepare env df)) as [gdf|] eqn:Ep.
      * destruct (result (detect env gdf)) as [sp|] eqn:Ed.
        -- split; [discriminate|].
           intros [H|[[df' [[= <-] H]]|[df' [gdf' ([= <-] & H1 & H2)]]]];
             try congruence.
        -- split; [|reflexivity]. intros _; right; right.
           exists df, gdf; auto.
      * split; [|reflexivity]. intros _; right; left. exists df; auto.
    + split; [|reflexivity]. intros _; left; reflexivity.
  - intros df gdf sp Hl Hp Hd. apply (run_visualized _ _ _ Hl Hp Hd).
  - intros [df [gdf [sp (Hl & Hp & Hd & Hv)]]].
    destruct (run_visualized _ _ _ Hl Hp Hd) as (Hhow & Hsaved & Hout).
    split; [exact Hhow|split].
    + apply Hout, visualize_reports_failure, Hv.
    + rewrite Hsaved; exact Hv.
Qed.

End Run.

(** C8.  The trajectory identifier is ["EquipmentId"] when the prepared
    table has a column of that name and ["Vehicle1_ID"] otherwise, whether
    or not a column ["Vehicle1_ID"] exists; the detector is consulted with
    that identifier only. *)
Theorem trajectory_id_first_match gdf :
  (In "EquipmentId" (columns (frame gdf)) -> trajectory_id_col gdf = "EquipmentId") /\
  (~ In "EquipmentId" (columns (frame gdf)) -> trajectory_id_col gdf = "Vehicle1_ID") /\
  (forall env env',
     get_stop_points env gdf (trajectory_id_col gdf)
       (timedelta_minutes STOPPAGE_THRESHOLD_MINUTES) max_diameter_meters
     = get_stop_points env' gdf (trajectory_id_col gdf)
         (timedelta_minutes STOPPAGE_THRESHOLD_MINUTES) max_diameter_meters ->
     result (detect env gdf) = result (detect env' gdf)).
Proof.
  unfold trajectory_id_col, has_column.
  split; [|split].
  - intros H.
    assert (E : existsb (String.eqb "EquipmentId") (columns (frame gdf)) = true).
    { apply existsb_exists. exists "EquipmentId"; split; [exact H|reflexivity]. }
    rewrite E; reflexivity.
  - intros H.
    destruct (existsb (String.eqb "EquipmentId") (columns (frame gdf))) eqn:E;
      [|reflexivity].
    apply existsb_exists in E as [c [Hc Ec]].
    apply String.eqb_eq in Ec; subst c. contradiction.
  - intros env env' H. rewrite !detect_result.
    unfold trajectory_id_col, has_column in *. rewrite H. reflexivity.
Qed.

(** ** When a step raises *)

Lemma load_result (env : Env) :
  result (load env)
  = match get_all_values env with
    | None => None
    | Some [] => None
    | Some (header :: body) => pd_DataFrame body header
    end.
Proof.
  unfold load. rewrite result_say, result_handled_lines, result_bind.
  destruct (get_all_values env) as [[|header body]|]; try reflexivity.
  simpl result at 1. cbv beta iota. rewrite result_bind.
  destruct (pd_DataFrame body header); reflexivity.
Qed.

Lemma has_column_count c df :
  has_column c df = negb (Nat.eqb (count c (columns df)) 0).
Proof.
  unfold has_column, count.
  induction (columns df) as [|k l IH]; simpl; [reflexivity|].
  destruct (string_dec k c) as [->|Hne].
  - rewrite String.eqb_refl; reflexivity.
  - assert (E : String.eqb c k = false)
      by (apply String.eqb_neq; congruence).
    rewrite E; exact IH.
Qed.

Lemma count_assign_same c f df :
  count c (columns (assign c f df)) = Nat.max 1 (count c (columns df)).
Proof.
  unfold assign; simpl. rewrite has_column_count.
  destruct (count c (columns df)) as [|n] eqn:E; simpl.
  - unfold count in *. rewrite count_occ_app, E. simpl.
    destruct (string_dec c c); [reflexivity|congruence].
  - rewrite E; reflexivity.
Qed.

Lemma count_assign_other c c' f df :
  c <> c' -> count c (columns (assign c' f df)) = count c (columns df).
Proof.
  intros Hne; unfold assign; simpl.
  destruct (has_column c' df); [reflexivity|].
  unfold count. rewrite count_occ_app; simpl.
  destruct (string_dec c' c); [congruence|]. apply Nat.add_0_r.
Qed.

Lemma count_set_index_other c c' df :
  c <> c' -> count c (columns (set_index c' df)) = count c (columns df).
Proof.
  intros Hne; unfold set_index, count; simpl.
  induction (columns df) as [|k l IH]; simpl; [reflexivity|].
  destruct (String.eqb c' k) eqn:E; simpl.
  - apply String.eqb_eq in E; subst k.
    destruct (string_dec c' c); [congruence|exact IH].
  - destruct (string_dec k c); rewrite IH; reflexivity.
Qed.

(** The preparation succeeds exactly when each column the script reads is
    there once and each column it writes is there at most once. *)
Lemma prepare_succeeds_iff (env : Env) df :
  (exists gdf, result (prepare env df) = Some gdf) <->
  count "eventGeneratedTime" (columns df) = 1%nat /\
  (count "Timestamp" (columns df) <= 1)%nat /\
  count "latitude" (columns df) = 1%nat /\
  count "longitude" (columns df) = 1%nat /\
  (count "geometry" (columns df) <= 1)%nat.
Proof.
  unfold prepare. rewrite result_say, result_handled. unfold series.
  rewrite !result_require, result_say.
  repeat first
    [ rewrite count_assign_same
    | rewrite count_assign_other by discriminate
    | rewrite count_set_index_other by discriminate
    | progress change (columns (sort_index ?d)) with (columns d)
    | progress change (columns (dropna ?s ?d)) with (columns d) ].
  destruct (Nat.eqb_spec (count "eventGeneratedTime" (columns df)) 1);
    [|split; [intros [? Habs]; discriminate Habs|tauto]].
  destruct (Nat.eqb_spec (Nat.max 1 (count "Timestamp" (columns df))) 1);
    [|split; [intros [? Habs]; discriminate Habs|lia]].
  destruct (Nat.eqb_spec (count "latitude" (columns df)) 1);
    [|split; [intros [? Habs]; discriminate Habs|tauto]].
  destruct (Nat.eqb_spec (count "longitude" (columns df)) 1);
    [|split; [intros [? Habs]; discriminate Habs|tauto]].
  destruct (Nat.eqb_spec (Nat.max 1 (count "geometry" (columns df))) 1);
    [|split; [intros [? Habs]; discriminate Habs|lia]].
  split; [intros _; lia|intros _; eexists; reflexivity].
Qed.

(** The detection step raises exactly when the table has rows and the
    trajectory library raises. *)
Lemma detect_raises_iff (env : Env) gdf :
  result (detect env gdf) = None <->
  empty (frame gdf) = false /\
  get_stop_points env gdf (trajectory_id_col gdf)
    (timedelta_minutes STOPPAGE_THRESHOLD_MINUTES) max_diameter_meters = None.
Proof.
  rewrite detect_result. destruct (empty (frame gdf)).
  - split; [discriminate|intros [[=] _]].
  - destruct (get_stop_points env gdf _ _ _) as [[|s pts]|];
      split; try discriminate; try (intros [_ [=]]); auto.
Qed.

(** ** The threshold handed to the detector

    The detector is asked for stops of at least [timedelta(minutes=5)], that
    is 300 seconds.  Whatever respects that bound in seconds respects the
    threshold in the minutes the script computes. *)

Lemma timedelta_threshold_seconds :
  timedelta_minutes STOPPAGE_THRESHOLD_MINUTES = (300 * 1000000)%Z.
Proof. reflexivity. Qed.

Lemma minutes_reach_threshold (env : Env) gdf sp :
  result (detect env gdf) = Some sp ->
  (forall pts,
     get_stop_points env gdf (trajectory_id_col gdf)
       (timedelta_minutes STOPPAGE_THRESHOLD_MINUTES) max_diameter_meters = Some pts ->
     Forall (fun s => (300 <= duration_s s)%Q) pts) ->
  Forall (fun row => exists d : Q,
            at_col "duration_minutes" row = VNum (Some d) /\
            (inject_Z STOPPAGE_THRESHOLD_MINUTES <= d)%Q)
         (rows (frame sp)).
Proof.
  rewrite detect_result. intros H Hbound.
  destruct (empty (frame gdf)).
  - injection H as <-. constructor.
  - destruct (get_stop_points env gdf _ _ _) as [pts|]; [|discriminate].
    specialize (Hbound pts eq_refl).
    assert (E : rows (frame sp)
                = map (write "duration_minutes" minutes_of) (map stop_row pts)).
    { destruct pts; injection H as <-; reflexivity. }
    rewrite E, map_map. apply Forall_forall. intros row Hrow.
    apply in_map_iff in Hrow as [s [<- Hs]].
    rewrite Forall_forall in Hbound. specialize (Hbound s Hs).
    exists (float_div (duration_s s) 60). split; [reflexivity|].
    apply (RN_ge_integer 5); [split; [reflexivity|discriminate]|].
    apply Qle_shift_div_l; [reflexivity|].
    apply (Qle_trans _ 300); [discriminate|exact Hbound].
Qed.

(** ** The properties on concrete sheets *)

Example run_pings_printed :
  printed (run (Sample.sheet_env (Some Sample.pings)))
  = [AttemptingLoad; DataLoaded; PreparingGeoDataFrame; GeoDataFrameCreated;
     DetectingStoppages 5; StoppagesIdentified 1; CreatingMap; PathAdded;
     MarkersAdded 1; MapSaved "vehicle_stoppages_map.html"; OpenInBrowser].
Proof. vm_compute. reflexivity. Qed.

Example run_pings_popup :
  option_map (fun doc => map (fun k => html (popup k)) (markers (snd doc)))
             (saved (run (Sample.sheet_env (Some Sample.pings))))
  = Some [popup_html "2021-01-01 00:00:00" "2021-01-01 00:10:00" "10.0"].
Proof. vm_compute. reflexivity. Qed.

Example run_no_coordinates_printed :
  printed (run (Sample.sheet_env (Some Sample.no_coordinates)))
  = [AttemptingLoad; DataLoaded; PreparingGeoDataFrame; GeoDataFrameCreated;
     DetectingStoppages 5; NoValidPoints; CreatingMap; NoMarkersToAdd;
     MapSaved "vehicle_stoppages_map.html"; OpenInBrowser].
Proof. vm_compute. reflexivity. Qed.

Example run_unreachable_sheet :
  run (Sample.sheet_env None) = mkOutcome [AttemptingLoad; ErrorLoading; PleaseEnsure;
               CheckServiceAccountFile "google_sheets_service_account.json";
               CheckSheetShared] Exited None.
Proof. reflexivity. Qed.

Example run_missing_column :
  run (Sample.sheet_env (Some [["EquipmentId"; "latitude"; "longitude"];
                               ["V1"; "21.1458"; "79.0880"]]))
  = mkOutcome [AttemptingLoad; DataLoaded; PreparingGeoDataFrame; ErrorPreparing]
              Exited None.
Proof. vm_compute. reflexivity. Qed.

Example float_division_then_round :
  float_div (3015 # 10) 60 = 2828823515942093 # 562949953421312 /\
  Sample.show_float (Some (py_round2 (float_div (3015 # 10) 60))) = "5.03" /\
  Sample.show_float (Some (py_round2 (float_div (3009 # 10) 60))) = "5.01" /\
  Sample.running_mean [Sample.decimal "21.1458"; Sample.decimal "21.1459"]
  = Some (2976013818138513 # 140737488355328).
Proof. vm_compute. repeat split. Qed.

Example round2_ties :
  map round2 [1 # 8; 3 # 8; 10 # 3; 601 # 60]
  = [12 # 100; 38 # 100; 333 # 100; 1002 # 100].
Proof. reflexivity. Qed.

(** C3 on the sheet [Sample.unreadable_time]: the row whose time is not a
    number stays in the prepared table, with NaT as its index, after the row
    that has a time. *)
Lemma unreadable_time_row_kept :
  let e := Sample.sheet_env (Some Sample.unreadable_time) in
  exists df gdf,
    result (load e) = Some df /\
    result (prepare e df) = Some gdf /\
    index_times (frame gdf) = [Some 1609459200000000000%Z; None] /\
    column "eventGeneratedTime" (frame gdf)
    = [VNum (Some (1609459200000 # 1)); VNum None] /\
    column "latitude" (frame gdf)
    = [VNum (Some (2976006781264095 # 140737488355328));
       VNum (Some (5952041710025861 # 281474976710656))].
Proof.
  simpl. eexists; eexists.
  split; [vm_compute; reflexivity|].
  split; [vm_compute; reflexivity|].
  repeat split.
Qed.

(** C4 as the specification words it fails on the sheet [Sample.one_ping]: the load
    and the preparation succeed, the detector refuses the one-row table, and
    the run ends in [exit()]. *)
Lemma exit_without_load_or_prepare_failure :
  let e := Sample.sheet_env (Some Sample.one_ping) in
  how (run e) = Exited /\ ~ load_failed e /\ ~ prepare_failed e.
Proof.
  simpl. split; [vm_compute; reflexivity|split].
  - unfold load_failed. vm_compute. discriminate.
  - intros [df [Hl Hp]].
    vm_compute in Hl. injection Hl as <-.
    vm_compute in Hp. discriminate.
Qed.

(** The sheet [Sample.no_coordinates]: no row survives, the map is saved at
    the fallback centre without markers. *)
Lemma empty_table_still_draws_map_witness :
  let e := Sample.sheet_env (Some Sample.no_coordinates) in
  let df := Sample.table_of Sample.no_coordinates in
  let gdf := Sample.prepared_of Sample.no_coordinates in
  result (load e) = Some df /\
  result (prepare e df) = Some gdf /\
  empty (frame gdf) = true /\
  save e output_map_file (mkMap fallback_center 12 []) = true /\
  result (detect e gdf) = Some empty_stop_points /\
  how (run e) = Completed /\
  exists doc,
    saved (run e) = Some (output_map_file, doc) /\
    location doc = (Some (200827 # 10000), Some (789629 # 10000)) /\
    markers doc = [] /\
    children doc = [].
Proof.
  intros e df gdf.
  assert (H1 : result (load e) = Some df) by (vm_compute; reflexivity).
  assert (H2 : result (prepare e df) = Some gdf) by (vm_compute; reflexivity).
  assert (H3 : empty (frame gdf) = true) by (vm_compute; reflexivity).
  assert (H4 : save e output_map_file (mkMap fallback_center 12 []) = true)
    by reflexivity.
  split; [exact H1|]. split; [exact H2|]. split; [exact H3|]. split; [exact H4|].
  exact (empty_table_still_draws_map e df gdf H1 H2 H3 H4).
Defined.

(** The sheet [Sample.pings]: the row whose latitude reads "n/a" is dropped,
    the first row is kept. *)
Lemma coordinate_rows_kept_or_dropped_witness :
  let e := Sample.sheet_env (Some Sample.pings) in
  let df := Sample.table_of Sample.pings in
  let gdf := Sample.prepared_of Sample.pings in
  let first := nth 0 (rows df) (mkRow VNone []) in
  let third := nth 2 (rows df) (mkRow VNone []) in
  result (prepare e df) = Some gdf /\
  at_col "latitude" third = VStr "n/a" /\
  to_numeric e (at_col "latitude" third) = None /\
  ~ In (prepared_row e third) (rows (frame gdf)) /\
  to_numeric e (at_col "latitude" first) = Some (1488017464380883 # 70368744177664) /\
  to_numeric e (at_col "longitude" first) = Some (2782668656635963 # 35184372088832) /\
  In (prepared_row e first) (rows (frame gdf)) /\
  Permutation (rows (frame gdf))
    (map (prepared_row e) (filter (coordinates_parse e) (rows df))).
Proof.
  intros e df gdf first third.
  assert (H : result (prepare e df) = Some gdf) by (vm_compute; reflexivity).
  destruct (coordinate_rows_kept_or_dropped e df gdf H) as (Hdrop & Hkeep & P).
  assert (B : to_numeric e (at_col "latitude" third) = None)
    by (vm_compute; reflexivity).
  assert (G1 : to_numeric e (at_col "latitude" first) = Some (1488017464380883 # 70368744177664))
    by (vm_compute; reflexivity).
  assert (G2 : to_numeric e (at_col "longitude" first) = Some (2782668656635963 # 35184372088832))
    by (vm_compute; reflexivity).
  split; [exact H|]. split; [reflexivity|]. split; [exact B|].
  split; [apply (Hdrop third); [right; right; left; reflexivity|left; exact B]|].
  split; [exact G1|]. split; [exact G2|].
  split; [|exact P].
  apply (Hkeep first); [left; reflexivity|rewrite G1|rewrite G2]; discriminate.
Defined.


(** The sheet [Sample.pings], which is not in time order, comes out in time
    order. *)
Lemma prepared_table_time_ordered_witness :
  let e := Sample.sheet_env (Some Sample.pings) in
  let df := Sample.table_of Sample.pings in
  let gdf := Sample.prepared_of Sample.pings in
  result (prepare e df) = Some gdf /\
  parsed_times (frame gdf)
  = [1609459200000000000; 1609459500000000000; 1609459800000000000]%Z /\
  chronological (frame gdf) /\
  StronglySorted Z.le (parsed_times (frame gdf)).
Proof.
  intros e df gdf.
  assert (H : result (prepare e df) = Some gdf) by (vm_compute; reflexivity).
  split; [exact H|]. split; [vm_compute; reflexivity|].
  destruct (prepared_table_time_ordered e df gdf H) as (C & S & _).
  split; [exact C|exact S].
Defined.

(** The sheet [Sample.pings]: one stop, one marker. *)
Lemma one_marker_per_stoppage_witness :
  let e := Sample.sheet_env (Some Sample.pings) in
  let gdf := Sample.prepared_of Sample.pings in
  let sp := Sample.stops_of Sample.pings in
  result (detect e gdf) = Some sp /\
  (forall m, save e output_map_file m = true) /\
  length (rows (frame sp)) = 1%nat /\
  exists doc,
    result (visualize e gdf sp) = Some (output_map_file, doc) /\
    length (markers doc) = 1%nat.
Proof.
  intros e gdf sp.
  assert (H : result (detect e gdf) = Some sp) by (vm_compute; reflexivity).
  assert (S : forall m, save e output_map_file m = true) by (intros m; reflexivity).
  split; [exact H|]. split; [exact S|]. split; [vm_compute; reflexivity|].
  destruct (one_marker_per_stoppage e gdf sp H S) as [doc [Hdoc F]].
  exists doc; split; [exact Hdoc|].
  apply Forall2_length in F. rewrite <- F. vm_compute. reflexivity.
Defined.


(** The sheet [Sample.one_ping]: the detection raises and the run exits. *)
Lemma exits_exactly_on_stage_failure_witness :
  let e := Sample.sheet_env (Some Sample.one_ping) in
  detect_failed e /\ how (run e) = Exited.
Proof.
  intros e.
  assert (D : detect_failed e).
  { exists (Sample.table_of Sample.one_ping), (Sample.prepared_of Sample.one_ping).
    repeat split; vm_compute; reflexivity. }
  split; [exact D|].
  apply (proj2 (proj1 (exits_exactly_on_stage_failure e))).
  right; right; exact D.
Defined.

(** A table with neither identifier column still gets ["Vehicle1_ID"]. *)
Lemma trajectory_id_first_match_witness :
  let gdf := Sample.anonymous_table in
  ~ In "EquipmentId" (columns (frame gdf)) /\
  ~ In "Vehicle1_ID" (columns (frame gdf)) /\
  trajectory_id_col gdf = "Vehicle1_ID".
Proof.
  intros gdf.
  assert (N : ~ In "EquipmentId" (columns (frame gdf))).
  { simpl. intros [H|[H|[H|[]]]]; discriminate. }
  split; [exact N|]. split.
  - simpl. intros [H|[H|[H|[]]]]; discriminate.
  - exact (proj1 (proj2 (trajectory_id_first_match gdf)) N).
Defined.

(** * More of the script *)

(** ** What each step prints *)

Section Transcript.

Variable env : Env.

Lemma load_outcome :
  load env = match result (load env) with
             | Some df => ([AttemptingLoad; DataLoaded], Some df)
             | None => ([AttemptingLoad; ErrorLoading; PleaseEnsure;
               CheckServiceAccountFile "google_sheets_service_account.json";
               CheckSheetShared], None)
             end.
Proof.
  unfold load.
  destruct (get_all_values env) as [[|header body]|]; try reflexivity.
  simpl. destruct (pd_DataFrame body header); reflexivity.
Qed.

Lemma prepare_outcome df :
  prepare env df
  = match result (prepare env df) with
    | Some gdf => ([PreparingGeoDataFrame; GeoDataFrameCreated], Some gdf)
    | None => ([PreparingGeoDataFrame; ErrorPreparing], None)
    end.
Proof.
  unfold prepare, series.
  repeat (match goal with
          | |- context [require (Nat.eqb ?a ?b)] => destruct (Nat.eqb a b)
          end;
          cbn [require bind say ret raise handled result snd fst app];
          try reflexivity).
Qed.

Lemma add_duration_minutes_block pts :
  add_duration_minutes (stop_frame pts)
  = ret (with_frame (stop_frame pts)
           (assign "duration_minutes" minutes_of (frame (stop_frame pts)))).
Proof.
  unfold add_duration_minutes, series. simpl.
  rewrite stop_rows_divisible. reflexivity.
Qed.

Lemma detect_outcome gdf :
  detect env gdf
  = if empty (frame gdf)
    then ([DetectingStoppages 5; NoValidPoints], Some empty_stop_points)
    else match get_stop_points env gdf (trajectory_id_col gdf)
                 (timedelta_minutes STOPPAGE_THRESHOLD_MINUTES)
                 max_diameter_meters with
         | None => ([DetectingStoppages 5; ErrorDetecting], None)
         | Some [] => ([DetectingStoppages 5; NoStoppagesFound], Some (stop_frame []))
         | Some pts =>
             ([DetectingStoppages 5; StoppagesIdentified (length pts)],
              Some (with_frame (stop_frame pts)
                      (assign "duration_minutes" minutes_of
                         (frame (stop_frame pts)))))
         end.
Proof.
  unfold detect. destruct (empty (frame gdf)); [reflexivity|].
  destruct (get_stop_points env gdf _ _ _) as [[|s pts]|]; try reflexivity.
  unfold lift, handled, say, ret at 1.
  cbn -[add_duration_minutes empty stop_frame assign].
  change (negb (empty (frame (stop_frame (s :: pts))))) with true.
  cbv iota. rewrite add_duration_minutes_block.
  simpl. rewrite !length_map. reflexivity.
Qed.

Lemma visualize_outcome gdf sp :
  let pre := CreatingMap :: (if empty (frame gdf) then [] else [PathAdded]) in
  let m0 := if empty (frame gdf) then mkMap (map_center env gdf) 12 []
            else add_to (Line (vehicle_path gdf)) (mkMap (map_center env gdf) 12 []) in
  visualize env gdf sp
  = if empty (frame sp)
    then if save env output_map_file m0
         then (pre ++ [NoMarkersToAdd; MapSaved output_map_file; OpenInBrowser],
               Some (output_map_file, m0))
         else (pre ++ [NoMarkersToAdd; ErrorVisualizing], None)
    else match add_markers env (rows (frame sp)) m0 with
         | None => (pre ++ [ErrorVisualizing], None)
         | Some m =>
             if save env output_map_file m
             then (pre ++ [MarkersAdded (length (rows (frame sp)));
                           MapSaved output_map_file; OpenInBrowser],
                   Some (output_map_file, m))
             else (pre ++ [MarkersAdded (length (rows (frame sp)));
                           ErrorVisualizing], None)
         end.
Proof.
  unfold visualize, add_path, add_stoppages.
  destruct (empty (frame gdf)), (empty (frame sp)); simpl.
  - destruct (save env output_map_file _); reflexivity.
  - destruct (add_markers env (rows (frame sp)) _) as [m|]; simpl; [|reflexivity].
    destruct (save env output_map_file m); reflexivity.
  - destruct (save env output_map_file _); reflexivity.
  - destruct (add_markers env (rows (frame sp)) _) as [m|]; simpl; [|reflexivity].
    destruct (save env output_map_file m); reflexivity.
Qed.

Lemma run_outcome df gdf sp :
  result (load env) = Some df ->
  result (prepare env df) = Some gdf ->
  result (detect env gdf) = Some sp ->
  run env
  = mkOutcome ([AttemptingLoad; DataLoaded; PreparingGeoDataFrame;
                GeoDataFrameCreated]
               ++ output (detect env gdf) ++ output (visualize env gdf sp))
              Completed (result (visualize env gdf sp)).
Proof.
  intros Hl Hp Hd. unfold run.
  rewrite load_outcome, Hl. rewrite prepare_outcome, Hp.
  destruct (detect env gdf) as [o3 [sp'|]] eqn:E; simpl in Hd; [|discriminate].
  injection Hd as ->. destruct (visualize env gdf sp) as [o4 doc]. reflexivity.
Qed.

End Transcript.

(** ** The loaded table *)

Lemma length_le_widest (body : list (list string)) r :
  In r body -> (length r <= fold_right Nat.max 0 (map (@length string) body))%nat.
Proof.
  induction body as [|r' body IH]; simpl; [contradiction|].
  intros [->|H]; [lia|]. specialize (IH H). lia.
Qed.

Lemma length_pad width r : (length r <= width)%nat -> length (pad width r) = width.
Proof.
  intros H. unfold pad. rewrite length_app, length_map, repeat_length. lia.
Qed.

Lemma keys_combine {A B : Type} (ks : list A) (vs : list B) :
  length ks = length vs -> map fst (combine ks vs) = ks.
Proof.
  revert vs; induction ks as [|k ks IH]; intros [|v vs]; simpl;
    try discriminate; [reflexivity|].
  intros [= H]. rewrite (IH _ H). reflexivity.
Qed.

Lemma combine_seq_rows {A : Type} (l : list A) : forall start,
  Forall2 (fun ir x => ir = (fst ir, x))
          (combine (seq start (length l)) l) l /\
  map fst (combine (seq start (length l)) l) = seq start (length l).
Proof.
  induction l as [|x l IH]; simpl; intros start; [split; constructor|].
  destruct (IH (S start)) as [F E]. split.
  - constructor; [reflexivity|exact F].
  - simpl. rewrite E. reflexivity.
Qed.

(** X1, lines 30-32.  A loaded table has the first sheet row as its column
    labels and one row per further sheet row, numbered from zero; every row
    carries exactly the column labels, in order. *)
Theorem loaded_table_shape (env : Env) df :
  result (load env) = Some df ->
  exists header body,
    get_all_values env = Some (header :: body) /\
    columns df = header /\
    length (rows df) = length body /\
    map label (rows df) = map (fun i => VInt (Z.of_nat i)) (seq 0 (length body)) /\
    Forall (fun r => map fst (cells r) = header) (rows df).
Proof.
  rewrite load_result.
  destruct (get_all_values env) as [[|header body]|]; try discriminate.
  intros H. exists header, body. split; [reflexivity|].
  unfold pd_DataFrame in H. destruct body as [|r0 body'] eqn:Eb.
  - injection H as <-. repeat split. constructor.
  - rewrite <- Eb in *.
    destruct (Nat.eqb_spec (fold_right Nat.max 0%nat (map (@length string) body))
                           (length header)) as [W|]; [|discriminate].
    injection H as <-. simpl columns. simpl rows.
    destruct (combine_seq_rows body 0) as [F E].
    split; [reflexivity|]. split; [|split].
    + rewrite length_map, length_combine, length_seq. lia.
    + rewrite map_map; simpl.
      transitivity (map (fun i => VInt (Z.of_nat i))
                        (map fst (combine (seq 0 (length body)) body)));
        [rewrite map_map; reflexivity|rewrite E; reflexivity].
    + apply Forall_forall. intros r Hr.
      apply in_map_iff in Hr as [[i raw] [<- Hin]]. simpl.
      apply keys_combine. rewrite length_pad; [lia|].
      rewrite W. rewrite <- W. apply length_le_widest.
      apply in_combine_r in Hin. exact Hin.
Qed.

Lemma lookup_combine_nth (ks : list string) : forall (vs : list value) j,
  NoDup ks -> (j < length ks)%nat -> length ks = length vs ->
  lookup (nth j ks "") (combine ks vs) = nth j vs VNone.
Proof.
  induction ks as [|k ks IH]; intros [|v vs] j Hnd Hj Hlen; simpl in *;
    try lia; try discriminate.
  inversion Hnd as [|? ? Hk Hnd']; subst.
  destruct j as [|j].
  - rewrite String.eqb_refl. reflexivity.
  - assert (Hne : String.eqb (nth j ks "") k = false).
    { apply String.eqb_neq. intros E. apply Hk. rewrite <- E.
      apply nth_In. lia. }
    rewrite Hne. apply IH; [exact Hnd'|lia|lia].
Qed.

Lemma widest_of_rectangle (body : list (list string)) n :
  body <> [] -> Forall (fun r => length r = n) body ->
  fold_right Nat.max 0%nat (map (@length string) body) = n.
Proof.
  intros Hne F. induction F as [|r body Hr F IH]; [congruence|].
  simpl. destruct body as [|r' body'].
  - simpl. lia.
  - rewrite IH by discriminate. lia.
Qed.

(** X2, lines 32 and 49-65.  On a rectangular sheet whose column names are
    distinct, reading a cell of the loaded table by its column name gives
    back the text of the sheet at that row and column. *)
Theorem loaded_cell_is_sheet_text (env : Env) header body :
  get_all_values env = Some (header :: body) ->
  NoDup header ->
  Forall (fun r => length r = length header) body ->
  exists df,
    result (load env) = Some df /\
    Forall2 (fun row raw =>
               forall j, (j < length header)%nat ->
                         at_col (nth j header "") row = VStr (nth j raw ""))
            (rows df) body.
Proof.
  intros Hget Hnd Hrect. rewrite load_result, Hget.
  unfold pd_DataFrame. destruct body as [|r0 body'] eqn:Eb.
  - eexists; split; [reflexivity|constructor].
  - rewrite <- Eb in *.
    assert (W : fold_right Nat.max 0%nat (map (@length string) body) = length header).
    { apply widest_of_rectangle; [rewrite Eb; discriminate|exact Hrect]. }
    rewrite W, Nat.eqb_refl. eexists; split; [reflexivity|]. simpl rows.
    apply Forall2_map_left.
    destruct (combine_seq_rows body 0) as [F _].
    assert (G : Forall2 (fun ir raw => ir = (fst ir, raw) /\ length raw = length header)
                        (combine (seq 0 (length body)) body) body).
    { clear - F Hrect. induction F as [|ir raw l l' E F IH]; [constructor|].
      inversion Hrect; subst. constructor; [split; assumption|apply IH; assumption]. }
    refine (Forall2_weaken _ _ _ _ _ G). intros [i raw'] raw [E Hlen] j Hj.
    injection E as ->. unfold at_col; simpl.
    unfold pad. rewrite Hlen, Nat.sub_diag, app_nil_r.
    rewrite lookup_combine_nth by (try assumption; rewrite length_map; lia).
    rewrite (nth_indep _ VNone (VStr "")) by (rewrite length_map; lia).
    apply (map_nth VStr).
Qed.

(** ** More on the preparation *)

Section Preparation.

Variable env : Env.

Lemma prepare_frame df gdf :
  result (prepare env df) = Some gdf ->
  gdf = mkGeo
          (assign "geometry" point_of
             (dropna ["latitude"; "longitude"]
                (assign "longitude" (numeric env "longitude")
                   (assign "latitude" (numeric env "latitude")
                      (sort_index
                         (set_index "Timestamp"
                            (assign "Timestamp" (parsed_time env)
                               (assign "eventGeneratedTime"
                                  (numeric env "eventGeneratedTime") df))))))))
          "geometry" "EPSG:4326".
Proof.
  unfold prepare. rewrite result_say, result_handled. unfold series.
  repeat (rewrite result_require;
          match goal with
          | |- (if ?b then _ else _) = _ -> _ => destruct b; [|discriminate]
          end).
  rewrite result_say. simpl. intros [= <-]. reflexivity.
Qed.

Lemma has_column_In c d : has_column c d = true <-> In c (columns d).
Proof.
  unfold has_column. rewrite existsb_exists. split.
  - intros [k [Hk E]]. apply String.eqb_eq in E; subst; exact Hk.
  - intros H; exists c; split; [exact H|apply String.eqb_refl].
Qed.

Lemma in_columns_assign c c' f d :
  In c (columns (assign c' f d)) <-> In c (columns d) \/ c = c'.
Proof.
  unfold assign; simpl. destruct (has_column c' d) eqn:E.
  - apply has_column_In in E. split; [auto|intros [H| ->]; assumption].
  - rewrite in_app_iff; simpl. intuition congruence.
Qed.

Lemma in_columns_set_index c c' d :
  In c (columns (set_index c' d)) <-> In c (columns d) /\ c <> c'.
Proof.
  unfold set_index; simpl. rewrite filter_In, negb_true_iff, String.eqb_neq.
  intuition congruence.
Qed.

Lemma count_one_In c cols : count c cols = 1%nat -> In c cols.
Proof.
  intros H. apply (count_occ_In string_dec). unfold count in H. lia.
Qed.

Lemma prepare_needs_columns df gdf :
  result (prepare env df) = Some gdf ->
  In "eventGeneratedTime" (columns df) /\
  In "latitude" (columns df) /\ In "longitude" (columns df).
Proof.
  intros H.
  destruct (proj1 (prepare_succeeds_iff env df) (ex_intro _ gdf H))
    as (H1 & _ & H3 & H4 & _).
  repeat split; apply count_one_In; assumption.
Qed.

Lemma distinct_header_prepares df :
  NoDup (columns df) ->
  In "eventGeneratedTime" (columns df) ->
  In "latitude" (columns df) -> In "longitude" (columns df) ->
  exists gdf, result (prepare env df) = Some gdf.
Proof.
  intros Hnd H1 H2 H3. apply prepare_succeeds_iff.
  pose proof (proj1 (NoDup_count_occ string_dec (columns df)) Hnd) as Hc.
  unfold count.
  pose proof (Hc "eventGeneratedTime"). pose proof (Hc "Timestamp").
  pose proof (Hc "latitude"). pose proof (Hc "longitude").
  pose proof (Hc "geometry").
  apply (count_occ_In string_dec) in H1, H2, H3. lia.
Qed.

(** X4, lines 49-65 and 86-88.  When the loaded table lacks the column
    [eventGeneratedTime], [latitude] or [longitude], the run prints the
    preparation error and exits there: nothing is detected, drawn or
    saved. *)
Theorem missing_column_exits df :
  result (load env) = Some df ->
  ~ In "eventGeneratedTime" (columns df) \/
  ~ In "latitude" (columns df) \/ ~ In "longitude" (columns df) ->
  run env = mkOutcome [AttemptingLoad; DataLoaded; PreparingGeoDataFrame;
                       ErrorPreparing] Exited None.
Proof.
  intros Hl Hmiss.
  assert (Hp : result (prepare env df) = None).
  { destruct (result (prepare env df)) as [gdf|] eqn:E; [|reflexivity].
    destruct (prepare_needs_columns _ _ E) as (H1 & H2 & H3). tauto. }
  unfold run. rewrite load_outcome, Hl, prepare_outcome, Hp. reflexivity.
Qed.

(** X5, lines 49-82.  For a table whose column names are distinct, the
    preparation succeeds exactly when [eventGeneratedTime], [latitude] and
    [longitude] are among them; the content of the cells never makes it
    raise. *)
Theorem prepare_succeeds_on_distinct_header df :
  NoDup (columns df) ->
  ((exists gdf, result (prepare env df) = Some gdf) <->
   In "eventGeneratedTime" (columns df) /\
   In "latitude" (columns df) /\ In "longitude" (columns df)).
Proof.
  intros Hnd. split.
  - intros [gdf H]. apply (prepare_needs_columns _ _ H).
  - intros (H1 & H2 & H3). apply distinct_header_prepares; assumption.
Qed.

(** X6, lines 57-82 and 97.  The prepared table has the columns of the loaded
    table other than [Timestamp], and [geometry]; so the trajectory
    identifier is ["EquipmentId"] exactly when the sheet has such a
    column. *)
Theorem prepared_columns df gdf :
  result (prepare env df) = Some gdf ->
  (forall c, In c (columns (frame gdf)) <->
             (In c (columns df) /\ c <> "Timestamp") \/ c = "geometry") /\
  (trajectory_id_col gdf = "EquipmentId" <-> In "EquipmentId" (columns df)).
Proof.
  intros H. destruct (prepare_needs_columns _ _ H) as (H1 & H2 & H3).
  assert (C : forall c, In c (columns (frame gdf)) <->
                        (In c (columns df) /\ c <> "Timestamp") \/ c = "geometry").
  { intros c. rewrite (prepare_frame _ _ H). simpl frame.
    rewrite in_columns_assign.
    change (columns (dropna ?s ?d)) with (columns d).
    rewrite !in_columns_assign.
    change (columns (sort_index ?d)) with (columns d).
    rewrite in_columns_set_index, !in_columns_assign.
    split.
    - intros Hc.
      repeat match goal with
             | Hx : _ \/ _ |- _ => destruct Hx
             | Hx : _ /\ _ |- _ => destruct Hx
             end; subst; try tauto; try congruence;
        left; split; try assumption; discriminate.
    - intros [[Hc Hne]| ->]; tauto. }
  split; [exact C|].
  unfold trajectory_id_col.
  destruct (has_column "EquipmentId" (frame gdf)) eqn:E.
  - apply has_column_In, C in E. destruct E as [[E _]|E]; [|discriminate].
    tauto.
  - split; [discriminate|]. intros Hin. exfalso.
    assert (Hc : In "EquipmentId" (columns (frame gdf)))
      by (apply C; left; split; [exact Hin|discriminate]).
    apply has_column_In in Hc. congruence.
Qed.

Lemma label_prepared r : exists t, label (prepared_row env r) = VTime t.
Proof.
  unfold prepared_row, with_coordinates, timed; simpl.
  rewrite at_col_write_same. eexists; reflexivity.
Qed.

Lemma geometry_prepared r :
  at_col "geometry" (prepared_row env r)
  = VPoint (mkPoint (to_numeric env (at_col "longitude" r))
                    (to_numeric env (at_col "latitude" r))).
Proof.
  unfold prepared_row. rewrite at_col_write_same. unfold point_of.
  rewrite latitude_with_coordinates, longitude_with_coordinates.
  rewrite !at_col_timed by discriminate. reflexivity.
Qed.

Lemma prepared_rows_points df gdf :
  result (prepare env df) = Some gdf ->
  Forall (fun r => exists t lat lon,
            label r = VTime t /\
            at_col "latitude" r = VNum (Some lat) /\
            at_col "longitude" r = VNum (Some lon) /\
            at_col "geometry" r = VPoint (mkPoint (Some lon) (Some lat)))
         (rows (frame gdf)).
Proof.
  intros H. apply Forall_forall. intros r Hr.
  apply (Permutation_in _ (prepared_rows_permutation _ _ _ H)) in Hr.
  apply in_map_iff in Hr as [r0 [<- Hr0]].
  apply filter_In in Hr0 as [_ Hok].
  destruct (label_prepared r0) as [t Ht]. exists t.
  unfold coordinates_parse in Hok.
  destruct (to_numeric env (at_col "latitude" r0)) as [lat|] eqn:Elat;
    [|discriminate].
  destruct (to_numeric env (at_col "longitude" r0)) as [lon|] eqn:Elon;
    [|discriminate].
  exists lat, lon. rewrite latitude_prepared, longitude_prepared, geometry_prepared.
  rewrite Elat, Elon. repeat split. exact Ht.
Qed.

(** X7, lines 57-79.  Every row of the prepared table is indexed by a
    timestamp, holds a latitude and a longitude that are numbers, and has as
    geometry the point whose x is that longitude and whose y is that
    latitude. *)
Theorem prepared_rows_have_points df gdf :
  result (prepare env df) = Some gdf ->
  Forall (fun r => exists t lat lon,
            label r = VTime t /\
            at_col "latitude" r = VNum (Some lat) /\
            at_col "longitude" r = VNum (Some lon) /\
            at_col "geometry" r = VPoint (mkPoint (Some lon) (Some lat)))
         (rows (frame gdf)).
Proof. apply prepared_rows_points. Qed.

End Preparation.

(** ** Whole runs *)

Section Runs.

Variable env : Env.

Lemma combine_maps {A B C : Type} (f : A -> B) (g : A -> C) (l : list A) :
  combine (map f l) (map g l) = map (fun a => (f a, g a)) l.
Proof. induction l as [|a l IH]; simpl; [|rewrite IH]; reflexivity. Qed.

Lemma add_stoppages_children sp m m' :
  result (add_stoppages env sp m) = Some m' ->
  exists ks, m' = mkMap (location m) (zoom_start m) (children m ++ map Pin ks).
Proof.
  unfold add_stoppages. destruct (empty (frame sp)); simpl.
  - intros [= <-]. exists []. simpl; rewrite app_nil_r; destruct m; reflexivity.
  - rewrite result_bind.
    destruct (add_markers env (rows (frame sp)) m) as [m1|] eqn:E; simpl;
      [|discriminate].
    intros [= <-]. apply add_markers_spec in E as [ks [_ ->]].
    exists ks; reflexivity.
Qed.

(** X8, lines 138-147.  The path drawn on the map has one vertex per row of the
    prepared table, in the order of the table, each the row's (latitude,
    longitude) and never NaN; on a non-empty table every document the map
    step yields has that path as its first element and only markers after
    it. *)
Theorem vehicle_path_follows_rows df gdf :
  result (prepare env df) = Some gdf ->
  Forall2 (fun r v => exists lat lon,
             v = (Some lat, Some lon) /\
             at_col "latitude" r = VNum (Some lat) /\
             at_col "longitude" r = VNum (Some lon))
          (rows (frame gdf)) (locations (vehicle_path gdf)) /\
  (forall sp doc,
     empty (frame gdf) = false ->
     result (visualize env gdf sp) = Some doc ->
     exists ks, children (snd doc) = Line (vehicle_path gdf) :: map Pin ks).
Proof.
  intros H. split.
  - simpl. unfold path_coords, column. rewrite !map_map, combine_maps.
    pose proof (prepared_rows_points env _ _ H) as F.
    induction F as [|r l (t & lat & lon & _ & Hlat & Hlon & _) _ IH]; simpl;
      constructor; [|exact IH].
    exists lat, lon. rewrite Hlat, Hlon. repeat split.
  - intros sp doc Hne. rewrite visualize_result, Hne.
    destruct (result (add_stoppages env sp _)) as [m|] eqn:E; [|discriminate].
    destruct (save env output_map_file m); [|discriminate].
    intros [= <-]; simpl.
    apply add_stoppages_children in E as [ks ->]. exists ks; reflexivity.
Qed.

(** X16, lines 37-42, 86-88 and 120-122.  A run that exits has printed,
    right after the lines of the steps before it, the error of the step that
    raised, followed for a load failure by the three lines of advice and by
    nothing else for a preparation or detection failure; it has saved
    nothing. *)
Theorem exit_transcripts :
  (load_failed env ->
   run env = mkOutcome [AttemptingLoad; ErrorLoading; PleaseEnsure;
               CheckServiceAccountFile "google_sheets_service_account.json";
               CheckSheetShared] Exited None) /\
  (prepare_failed env ->
   run env = mkOutcome [AttemptingLoad; DataLoaded; PreparingGeoDataFrame;
                        ErrorPreparing] Exited None) /\
  (detect_failed env ->
   run env = mkOutcome [AttemptingLoad; DataLoaded; PreparingGeoDataFrame;
                        GeoDataFrameCreated; DetectingStoppages 5;
                        ErrorDetecting] Exited None).
Proof.
  unfold load_failed, prepare_failed, detect_failed. split; [|split].
  - intros H. unfold run. rewrite load_outcome, H. reflexivity.
  - intros [df [Hl Hp]]. unfold run.
    rewrite load_outcome, Hl, prepare_outcome, Hp. reflexivity.
  - intros [df [gdf (Hl & Hp & Hd)]]. unfold run.
    rewrite load_outcome, Hl, prepare_outcome, Hp.
    apply detect_raises_iff in Hd as [Hne Hraise].
    rewrite detect_outcome, Hne, Hraise. reflexivity.
Qed.

(** X14, lines 113-118 and 150-176.  When the table has rows and the detector
    finds no stop, the run says so, draws the path alone and saves the map;
    the write of the file is the one thing that can still fail. *)
Theorem run_without_stoppages df gdf :
  result (load env) = Some df ->
  result (prepare env df) = Some gdf ->
  empty (frame gdf) = false ->
  get_stop_points env gdf (trajectory_id_col gdf)
    (timedelta_minutes STOPPAGE_THRESHOLD_MINUTES) max_diameter_meters = Some [] ->
  save env output_map_file (mkMap (map_center env gdf) 12 [Line (vehicle_path gdf)])
  = true ->
  run env
  = mkOutcome [AttemptingLoad; DataLoaded; PreparingGeoDataFrame;
               GeoDataFrameCreated; DetectingStoppages 5; NoStoppagesFound;
               CreatingMap; PathAdded; NoMarkersToAdd;
               MapSaved "vehicle_stoppages_map.html"; OpenInBrowser]
              Completed
              (Some ("vehicle_stoppages_map.html",
                     mkMap (map_center env gdf) 12 [Line (vehicle_path gdf)])).
Proof.
  intros Hl Hp Hne Hnone Hsave.
  assert (Hd : detect env gdf
               = ([DetectingStoppages 5; NoStoppagesFound], Some (stop_frame [])))
    by (rewrite detect_outcome, Hne, Hnone; reflexivity).
  rewrite (run_outcome env df gdf (stop_frame [])); try assumption;
    [|rewrite Hd; reflexivity].
  rewrite Hd. pose proof (visualize_outcome env gdf (stop_frame [])) as V.
  cbv zeta in V. rewrite Hne in V.
  change (empty (frame (stop_frame []))) with true in V. cbv iota in V.
  change (add_to (Line (vehicle_path gdf)) (mkMap (map_center env gdf) 12 []))
    with (mkMap (map_center env gdf) 12 [Line (vehicle_path gdf)]) in V.
  rewrite Hsave in V. rewrite V. reflexivity.
Qed.


End Runs.

(** ** What the transcript tells *)

Ltac settle_transcript :=
  simpl; repeat split; intros;
  repeat match goal with
         | H : exists _, _ |- _ => destruct H
         | H : _ /\ _ |- _ => destruct H
         | H : _ \/ _ |- _ => destruct H
         | H : False |- _ => contradiction
         | H : Some (_, _) = Some (_, _) |- _ => injection H as <- <-
         end;
  try discriminate; try congruence; try reflexivity;
  try (eexists; reflexivity); try tauto; auto 20.

Lemma add_markers_zoom (env : Env) rs m m' :
  add_markers env rs m = Some m' -> zoom_start m' = zoom_start m.
Proof. intros H. apply add_markers_spec in H as [ks [_ ->]]. reflexivity. Qed.

(** X17, lines 135 and 173-180.  A run has saved a map exactly when it printed
    that the map was saved, and it completed without a saved map exactly when
    it printed the map error; a saved map is always at the fixed file name
    with zoom 12. *)
Theorem saved_iff_announced (env : Env) :
  ((exists doc, saved (run env) = Some doc) <->
   In (MapSaved "vehicle_stoppages_map.html") (printed (run env))) /\
  (how (run env) = Completed /\ saved (run env) = None <->
   In ErrorVisualizing (printed (run env))) /\
  (forall f m, saved (run env) = Some (f, m) ->
               f = "vehicle_stoppages_map.html" /\ zoom_start m = 12%Z).
Proof.
  destruct (result (load env)) as [df|] eqn:Hl.
  2: { assert (R : run env = mkOutcome [AttemptingLoad; ErrorLoading; PleaseEnsure;
               CheckServiceAccountFile "google_sheets_service_account.json";
               CheckSheetShared] Exited None)
         by (unfold run; rewrite load_outcome, Hl; reflexivity).
       rewrite R. settle_transcript. }
  destruct (result (prepare env df)) as [gdf|] eqn:Hp.
  2: { assert (R : run env = mkOutcome [AttemptingLoad; DataLoaded;
                                        PreparingGeoDataFrame; ErrorPreparing]
                                       Exited None)
         by (unfold run; rewrite load_outcome, Hl, prepare_outcome, Hp; reflexivity).
       rewrite R. settle_transcript. }
  destruct (result (detect env gdf)) as [sp|] eqn:Hd.
  2: { assert (R : run env = mkOutcome [AttemptingLoad; DataLoaded;
                                        PreparingGeoDataFrame; GeoDataFrameCreated;
                                        DetectingStoppages 5; ErrorDetecting]
                                       Exited None).
       { unfold run. rewrite load_outcome, Hl, prepare_outcome, Hp.
         apply detect_raises_iff in Hd as [Hne Hraise].
         rewrite detect_outcome, Hne, Hraise. reflexivity. }
       rewrite R. settle_transcript. }
  rewrite (run_outcome env df gdf sp Hl Hp Hd).
  pose proof (visualize_outcome env gdf sp) as V. cbv zeta in V.
  assert (D : exists d, output (detect env gdf) = [DetectingStoppages 5; d] /\
                        d <> MapSaved "vehicle_stoppages_map.html" /\
                        d <> ErrorVisualizing).
  { rewrite detect_outcome.
    destruct (empty (frame gdf)); [eexists; repeat split; discriminate|].
    destruct (get_stop_points env gdf _ _ _) as [[|s pts]|];
      eexists; repeat split; discriminate. }
  destruct D as [d (-> & Dsaved & Derr)].
  destruct (empty (frame gdf)); destruct (empty (frame sp)).
  - destruct (save env output_map_file _); rewrite V; settle_transcript.
  - destruct (add_markers env (rows (frame sp)) _) as [m|] eqn:E.
    + apply add_markers_zoom in E. simpl in E.
      destruct (save env output_map_file m); rewrite V; settle_transcript.
    + rewrite V; settle_transcript.
  - destruct (save env output_map_file _); rewrite V; settle_transcript.
  - destruct (add_markers env (rows (frame sp)) _) as [m|] eqn:E.
    + apply add_markers_zoom in E. simpl in E.
      destruct (save env output_map_file m); rewrite V; settle_transcript.
    + rewrite V; settle_transcript.
Qed.

(** ** The detector and the threshold *)

(** X12, lines 92-94.  On a sheet without a single coordinate pair that parses
    the trajectory library is not consulted: whatever detector is put in
    its place, the run is the same. *)
Theorem detector_idle_without_fixes (env : Env) df gdf :
  result (load env) = Some df ->
  result (prepare env df) = Some gdf ->
  valid_coordinates env df = [] ->
  forall detector,
    run (mkEnv (get_all_values env) (parse_number env) (datetime_of_ms env)
               (series_mean env) detector (strftime env) (float_str env)
               (save env))
    = run env.
Proof.
  intros Hl Hp Hnone detector.
  pose proof (no_valid_coordinates_empty env df gdf Hp Hnone) as Hempty.
  set (env' := mkEnv _ _ _ _ detector _ _ _).
  unfold run.
  change (load env') with (load env). rewrite load_outcome, Hl.
  change (prepare env' df) with (prepare env df). rewrite prepare_outcome, Hp.
  rewrite !detect_outcome, Hempty.
  change (visualize env' gdf empty_stop_points)
    with (visualize env gdf empty_stop_points).
  reflexivity.
Qed.

(** X13, lines 30-32, 92-94 and 127-176.  A sheet that has only its header row,
    with distinct column names among which are the three the script reads,
    gives a completed run: no trajectory is built and the map is saved at
    the fallback centre with nothing on it. *)
Theorem header_only_sheet (env : Env) header :
  get_all_values env = Some [header] ->
  NoDup header ->
  In "eventGeneratedTime" header -> In "latitude" header -> In "longitude" header ->
  save env output_map_file (mkMap fallback_center 12 []) = true ->
  run env
  = mkOutcome [AttemptingLoad; DataLoaded; PreparingGeoDataFrame;
               GeoDataFrameCreated; DetectingStoppages 5; NoValidPoints;
               CreatingMap; NoMarkersToAdd; MapSaved "vehicle_stoppages_map.html"; OpenInBrowser]
              Completed
              (Some ("vehicle_stoppages_map.html", mkMap fallback_center 12 [])).
Proof.
  intros Hget Hnd H1 H2 H3 Hsave.
  assert (Hl : result (load env) = Some (mkFrame header []))
    by (rewrite load_result, Hget; reflexivity).
  destruct (distinct_header_prepares env (mkFrame header []) Hnd H1 H2 H3)
    as [gdf Hp].
  assert (Hrows : rows (frame gdf) = []) by (rewrite (prepare_rows _ _ _ Hp); reflexivity).
  assert (Hempty : empty (frame gdf) = true)
    by (unfold empty; rewrite Hrows; apply orb_true_r).
  assert (Hd : detect env gdf
               = ([DetectingStoppages 5; NoValidPoints], Some empty_stop_points))
    by (rewrite detect_outcome, Hempty; reflexivity).
  rewrite (run_outcome env _ gdf empty_stop_points Hl Hp);
    [|rewrite Hd; reflexivity].
  pose proof (visualize_outcome env gdf empty_stop_points) as V. cbv zeta in V.
  rewrite Hempty in V. change (empty (frame empty_stop_points)) with true in V.
  cbv iota in V. unfold map_center in V. rewrite Hempty in V. simpl negb in V.
  cbv iota in V. rewrite Hsave in V. rewrite Hd, V. reflexivity.
Qed.

(** X10, lines 100-104 and 114.  The detector is asked for stops of at least
    [timedelta(minutes=5)]; when every stop it returns lasts at least the
    duration it was asked for, every row of the stoppage table has a
    [duration_minutes] of at least the threshold of 5. *)
Theorem threshold_respected_in_minutes (env : Env) gdf sp :
  result (detect env gdf) = Some sp ->
  (forall pts,
     get_stop_points env gdf (trajectory_id_col gdf)
       (timedelta_minutes STOPPAGE_THRESHOLD_MINUTES) max_diameter_meters = Some pts ->
     Forall (fun s => (inject_Z (timedelta_minutes STOPPAGE_THRESHOLD_MINUTES)
                       <= duration_s s * 1000000)%Q) pts) ->
  Forall (fun row => exists d : Q,
            at_col "duration_minutes" row = VNum (Some d) /\
            (inject_Z STOPPAGE_THRESHOLD_MINUTES <= d)%Q)
         (rows (frame sp)).
Proof.
  rewrite detect_result. intros H Hbound.
  destruct (empty (frame gdf)).
  - injection H as <-. constructor.
  - destruct (get_stop_points env gdf _ _ _) as [pts|]; [|discriminate].
    specialize (Hbound _ eq_refl).
    assert (E : rows (frame sp)
                = map (write "duration_minutes" minutes_of) (map stop_row pts)).
    { destruct pts; injection H as <-; reflexivity. }
    rewrite E, map_map. apply Forall_forall. intros row Hrow.
    apply in_map_iff in Hrow as [s [<- Hs]].
    rewrite Forall_forall in Hbound. specialize (Hbound s Hs).
    exists (float_div (duration_s s) 60). split; [reflexivity|].
    change (inject_Z (timedelta_minutes STOPPAGE_THRESHOLD_MINUTES))
      with (300000000 # 1)%Q in Hbound.
    apply (RN_ge_integer 5); [split; [reflexivity|discriminate]|].
    change (inject_Z 5) with (5 # 1)%Q.
    apply Qle_shift_div_l; [reflexivity|]. lra.
Qed.

(** ** More runs on concrete sheets *)

(** The sheet [Sample.pings] loads as four rows under its four column
    names. *)
Lemma loaded_table_shape_witness :
  let e := Sample.sheet_env (Some Sample.pings) in
  let df := Sample.table_of Sample.pings in
  result (load e) = Some df /\
  length (rows df) = 4%nat /\
  exists header body,
    get_all_values e = Some (header :: body) /\
    columns df = header /\
    length (rows df) = length body /\
    map label (rows df) = map (fun i => VInt (Z.of_nat i)) (seq 0 (length body)) /\
    Forall (fun r => map fst (cells r) = header) (rows df).
Proof.
  intros e df.
  assert (H : result (load e) = Some df) by (vm_compute; reflexivity).
  split; [exact H|]. split; [reflexivity|].
  exact (loaded_table_shape e df H).
Defined.

Lemma distinct_sample_header :
  NoDup ["EquipmentId"; "eventGeneratedTime"; "latitude"; "longitude"].
Proof.
  repeat constructor; simpl; intuition discriminate.
Defined.

(** On the sheet [Sample.pings] the third row reads "n/a" under
    [latitude]. *)
Lemma loaded_cell_is_sheet_text_witness :
  let e := Sample.sheet_env (Some Sample.pings) in
  let header := ["EquipmentId"; "eventGeneratedTime"; "latitude"; "longitude"] in
  let body := tl Sample.pings in
  get_all_values e = Some (header :: body) /\
  NoDup header /\
  Forall (fun r => length r = length header) body /\
  exists df,
    result (load e) = Some df /\
    Forall2 (fun row raw =>
               forall j, (j < length header)%nat ->
                         at_col (nth j header "") row = VStr (nth j raw ""))
            (rows df) body.
Proof.
  intros e header body.
  assert (G : get_all_values e = Some (header :: body)) by reflexivity.
  assert (R : Forall (fun r => length r = length header) body)
    by (repeat constructor).
  split; [exact G|]. split; [exact distinct_sample_header|]. split; [exact R|].
  exact (loaded_cell_is_sheet_text e header body G distinct_sample_header R).
Defined.

(** The sheet [Sample.no_time_column] stops the run in the preparation. *)
Lemma missing_column_exits_witness :
  let e := Sample.sheet_env (Some Sample.no_time_column) in
  let df := Sample.table_of Sample.no_time_column in
  result (load e) = Some df /\
  ~ In "eventGeneratedTime" (columns df) /\
  run e = mkOutcome [AttemptingLoad; DataLoaded; PreparingGeoDataFrame;
                     ErrorPreparing] Exited None.
Proof.
  intros e df.
  assert (H : result (load e) = Some df) by (vm_compute; reflexivity).
  assert (N : ~ In "eventGeneratedTime" (columns df)).
  { vm_compute. intros [E|[E|[E|[]]]]; discriminate. }
  split; [exact H|]. split; [exact N|].
  exact (missing_column_exits e df H (or_introl N)).
Defined.

(** The table of [Sample.pings] has distinct column names and prepares. *)
Lemma prepare_succeeds_on_distinct_header_witness :
  let e := Sample.sheet_env (Some Sample.pings) in
  let df := Sample.table_of Sample.pings in
  NoDup (columns df) /\
  exists gdf, result (prepare e df) = Some gdf.
Proof.
  intros e df.
  assert (N : NoDup (columns df)) by exact distinct_sample_header.
  split; [exact N|].
  apply (proj2 (prepare_succeeds_on_distinct_header e df N)).
  repeat split; vm_compute; auto 6.
Defined.

(** The prepared table of [Sample.pings] keeps [EquipmentId] and is given
    ["EquipmentId"] as trajectory identifier. *)
Lemma prepared_columns_witness :
  let e := Sample.sheet_env (Some Sample.pings) in
  let df := Sample.table_of Sample.pings in
  let gdf := Sample.prepared_of Sample.pings in
  result (prepare e df) = Some gdf /\
  columns (frame gdf)
  = ["EquipmentId"; "eventGeneratedTime"; "latitude"; "longitude"; "geometry"] /\
  trajectory_id_col gdf = "EquipmentId".
Proof.
  intros e df gdf.
  assert (H : result (prepare e df) = Some gdf) by (vm_compute; reflexivity).
  split; [exact H|]. split; [vm_compute; reflexivity|].
  apply (proj2 (proj2 (prepared_columns e df gdf H))).
  left; reflexivity.
Defined.

(** The three prepared rows of [Sample.pings] carry their points. *)
Lemma prepared_rows_have_points_witness :
  let e := Sample.sheet_env (Some Sample.pings) in
  let df := Sample.table_of Sample.pings in
  let gdf := Sample.prepared_of Sample.pings in
  result (prepare e df) = Some gdf /\
  length (rows (frame gdf)) = 3%nat /\
  Forall (fun r => exists t lat lon,
            label r = VTime t /\
            at_col "latitude" r = VNum (Some lat) /\
            at_col "longitude" r = VNum (Some lon) /\
            at_col "geometry" r = VPoint (mkPoint (Some lon) (Some lat)))
         (rows (frame gdf)).
Proof.
  intros e df gdf.
  assert (H : result (prepare e df) = Some gdf) by (vm_compute; reflexivity).
  split; [exact H|]. split; [vm_compute; reflexivity|].
  exact (prepared_rows_have_points e df gdf H).
Defined.

(** The path of [Sample.pings] has three vertices. *)
Lemma vehicle_path_follows_rows_witness :
  let e := Sample.sheet_env (Some Sample.pings) in
  let df := Sample.table_of Sample.pings in
  let gdf := Sample.prepared_of Sample.pings in
  result (prepare e df) = Some gdf /\
  length (locations (vehicle_path gdf)) = 3%nat /\
  Forall2 (fun r v => exists lat lon,
             v = (Some lat, Some lon) /\
             at_col "latitude" r = VNum (Some lat) /\
             at_col "longitude" r = VNum (Some lon))
          (rows (frame gdf)) (locations (vehicle_path gdf)).
Proof.
  intros e df gdf.
  assert (H : result (prepare e df) = Some gdf) by (vm_compute; reflexivity).
  split; [exact H|]. split; [vm_compute; reflexivity|].
  exact (proj1 (vehicle_path_follows_rows e df gdf H)).
Defined.

(** A sheet that cannot be reached ends the run at once. *)
Lemma exit_transcripts_witness :
  let e := Sample.sheet_env None in
  load_failed e /\
  run e = mkOutcome [AttemptingLoad; ErrorLoading; PleaseEnsure;
               CheckServiceAccountFile "google_sheets_service_account.json";
               CheckSheetShared] Exited None.
Proof.
  intros e.
  assert (L : load_failed e) by reflexivity.
  split; [exact L|].
  exact (proj1 (exit_transcripts e) L).
Defined.

(** The sheet [Sample.short_stay]: two fixes a minute apart, no stop. *)
Lemma run_without_stoppages_witness :
  let e := Sample.sheet_env (Some Sample.short_stay) in
  let df := Sample.table_of Sample.short_stay in
  let gdf := Sample.prepared_of Sample.short_stay in
  result (load e) = Some df /\
  result (prepare e df) = Some gdf /\
  empty (frame gdf) = false /\
  get_stop_points e gdf (trajectory_id_col gdf)
    (timedelta_minutes STOPPAGE_THRESHOLD_MINUTES) max_diameter_meters = Some [] /\
  saved (run e)
  = Some ("vehicle_stoppages_map.html",
          mkMap (map_center e gdf) 12 [Line (vehicle_path gdf)]).
Proof.
  intros e df gdf.
  assert (H1 : result (load e) = Some df) by (vm_compute; reflexivity).
  assert (H2 : result (prepare e df) = Some gdf) by (vm_compute; reflexivity).
  assert (H3 : empty (frame gdf) = false) by (vm_compute; reflexivity).
  assert (H4 : get_stop_points e gdf (trajectory_id_col gdf)
                 (timedelta_minutes STOPPAGE_THRESHOLD_MINUTES) max_diameter_meters
               = Some []) by (vm_compute; reflexivity).
  assert (H5 : save e output_map_file
                 (mkMap (map_center e gdf) 12 [Line (vehicle_path gdf)]) = true)
    by reflexivity.
  split; [exact H1|]. split; [exact H2|]. split; [exact H3|]. split; [exact H4|].
  rewrite (run_without_stoppages e df gdf H1 H2 H3 H4 H5). reflexivity.
Defined.


(** The run on [Sample.pings] announces and saves its map. *)
Lemma saved_iff_announced_witness :
  let e := Sample.sheet_env (Some Sample.pings) in
  In (MapSaved "vehicle_stoppages_map.html") (printed (run e)) /\
  exists doc, saved (run e) = Some doc.
Proof.
  intros e.
  assert (P : In (MapSaved "vehicle_stoppages_map.html") (printed (run e)))
    by (vm_compute; auto 12).
  split; [exact P|].
  exact (proj2 (proj1 (saved_iff_announced e)) P).
Defined.

(** On [Sample.no_coordinates] a detector that always raises changes
    nothing. *)
Lemma detector_idle_without_fixes_witness :
  let e := Sample.sheet_env (Some Sample.no_coordinates) in
  let df := Sample.table_of Sample.no_coordinates in
  let gdf := Sample.prepared_of Sample.no_coordinates in
  result (load e) = Some df /\
  result (prepare e df) = Some gdf /\
  valid_coordinates e df = [] /\
  run (mkEnv (get_all_values e) (parse_number e) (datetime_of_ms e)
             (series_mean e) (fun _ _ _ _ => None) (strftime e) (float_str e)
             (save e))
  = run e.
Proof.
  intros e df gdf.
  assert (H1 : result (load e) = Some df) by (vm_compute; reflexivity).
  assert (H2 : result (prepare e df) = Some gdf) by (vm_compute; reflexivity).
  assert (H3 : valid_coordinates e df = []) by (vm_compute; reflexivity).
  split; [exact H1|]. split; [exact H2|]. split; [exact H3|].
  exact (detector_idle_without_fixes e df gdf H1 H2 H3 (fun _ _ _ _ => None)).
Defined.

(** The sheet [Sample.header_only]. *)
Lemma header_only_sheet_witness :
  let e := Sample.sheet_env (Some Sample.header_only) in
  let header := ["EquipmentId"; "eventGeneratedTime"; "latitude"; "longitude"] in
  get_all_values e = Some [header] /\
  NoDup header /\
  saved (run e) = Some ("vehicle_stoppages_map.html", mkMap fallback_center 12 []).
Proof.
  intros e header.
  assert (G : get_all_values e = Some [header]) by reflexivity.
  split; [exact G|]. split; [exact distinct_sample_header|].
  rewrite (header_only_sheet e header G distinct_sample_header);
    [reflexivity|simpl; auto 6 ..|reflexivity].
Defined.

(** The sample detector keeps to the duration it is asked for on
    [Sample.pings], and the stop it returns lasts ten minutes. *)
Lemma threshold_respected_in_minutes_witness :
  let e := Sample.sheet_env (Some Sample.pings) in
  let gdf := Sample.prepared_of Sample.pings in
  let sp := Sample.stops_of Sample.pings in
  result (detect e gdf) = Some sp /\
  column "duration_minutes" (frame sp) = [VNum (Some (10 # 1))] /\
  Forall (fun row => exists d : Q,
            at_col "duration_minutes" row = VNum (Some d) /\
            (inject_Z STOPPAGE_THRESHOLD_MINUTES <= d)%Q)
         (rows (frame sp)).
Proof.
  intros e gdf sp.
  assert (H : result (detect e gdf) = Some sp) by (vm_compute; reflexivity).
  split; [exact H|]. split; [vm_compute; reflexivity|].
  apply (threshold_respected_in_minutes e gdf sp H).
  intros pts Hpts. vm_compute in Hpts. injection Hpts as <-.
  constructor; [|constructor]. vm_compute. discriminate.
Defined.

(** ** Two more edges *)

(** X3, lines 29-32 and 37-42.  A sheet without any row, not even a header,
    makes [data[0]] raise: the run prints the load error and exits. *)
Theorem empty_sheet_exits (env : Env) :
  get_all_values env = Some [] ->
  run env = mkOutcome [AttemptingLoad; ErrorLoading; PleaseEnsure;
               CheckServiceAccountFile "google_sheets_service_account.json";
               CheckSheetShared] Exited None.
Proof.
  intros H. unfold run. rewrite load_outcome, load_result, H. reflexivity.
Qed.

Lemma empty_sheet_exits_witness :
  let e := Sample.sheet_env (Some []) in
  get_all_values e = Some [] /\
  how (run e) = Exited /\ saved (run e) = None.
Proof.
  intros e.
  assert (G : get_all_values e = Some []) by reflexivity.
  split; [exact G|].
  rewrite (empty_sheet_exits e G). split; reflexivity.
Defined.
